(** * SureWeather: the weather suitability scoring engine

    A shallow embedding of the rule-based scoring code of the SureWeather
    backend ([backend/app/scoring.py], [backend/app/clothing.py],
    [backend/app/services.py]) and of the seasonal probability model
    ([ml/probabilities.py]).

    Python floats are modelled as exact rationals [Q]; Python's [max]/[min]
    are modelled with their "first argument wins on ties" behaviour; a
    [weather_data] dictionary is a record of optional fields (a key that is
    absent is [None]) read through [dict.get] with the source's defaults. *)

From Stdlib Require Import QArith Qround Qabs Qminmax ZArith List String Bool Lia Lqa Sorted Permutation.
Import ListNotations.
Open Scope string_scope.
Open Scope list_scope.
Open Scope Q_scope.

(** ** Python helpers *)

(** [a < b] on floats. *)
Definition qlt (a b : Q) : bool := negb (Qle_bool b a).

(** Python's [min(a, b)]: [b] only when [b < a]. *)
Definition py_min (a b : Q) : Q := if qlt b a then b else a.

(** Python's [max(a, b)]: [b] only when [b > a]. *)
Definition py_max (a b : Q) : Q := if qlt a b then b else a.

(** [d.get(key, default)]. *)
Definition get {A} (o : option A) (default : A) : A :=
  match o with Some v => v | None => default end.

(** [x in [a; b; ...]] on strings. *)
Definition str_in (x : string) (l : list string) : bool :=
  existsb (String.eqb x) l.

(** ** Data model *)

(** The [weather_data: Dict[str, Any]] mapping handed to the scorers.  Each
    recognised key may be absent. *)
Record weather := mkWeather {
  temperature : option Q;
  humidity : option Q;
  wind_speed : option Q;
  precipitation : option Q;
  visibility : option Q;
  uv_index : option Q;
  cloud_cover : option Q;
  condition : option string
}.

(** [event["weather_requirements"]]: the recognised keys, each optional.
    Other keys (such as [min_precipitation] in the catalog) are never read. *)
Record requirements := mkReq {
  min_temp : option Q;
  max_temp : option Q;
  min_wind : option Q;
  max_wind : option Q;
  max_precipitation : option Q;
  min_visibility : option Q
}.

(** A catalog entry of [db.get_events()]. *)
Record event := mkEvent {
  ev_id : string;
  ev_name : string;
  ev_category : string;
  weather_requirements : requirements;
  min_comfort_score : Q
}.

(** The reason strings of [_calculate_score]; the f-strings carry the values
    they format. *)
Inductive reason :=
| TempTooLow (actual threshold : Q)
| TempTooHigh (actual threshold : Q)
| WindTooLight (actual threshold : Q)
| WindTooStrong (actual threshold : Q)
| TooMuchPrecipitation (actual threshold : Q)
| PoorVisibility (actual threshold : Q)
| RText (s : string).

(** ** EventScoringService._calculate_score *)

Definition default_temperature : Q := 20.
Definition default_humidity : Q := 50.
Definition default_wind_speed : Q := 10.
Definition default_precipitation : Q := 0.
Definition default_visibility : Q := 10.
Definition default_uv_index : Q := 5.
Definition default_condition : string := "sunny".

(** The mutable locals [score], [reasons], [recommendations]. *)
Record score_state := mkSS {
  ss_score : Q;
  ss_reasons : list reason;
  ss_recs : list string
}.

(** [score -= penalty; reasons.append(r); recommendations.append(c)] *)
Definition penalise (st : score_state) (penalty : Q) (r : reason) (c : option string)
  : score_state :=
  mkSS (ss_score st - penalty) (ss_reasons st ++ [r])
       (match c with Some c => ss_recs st ++ [c] | None => ss_recs st end).

(** [if "k" in requirements: if cond: ...] *)
Definition check_req (st : score_state) (req : option Q) (violated : Q -> bool)
  (penalty : Q -> Q) (r : Q -> reason) (c : string) : score_state :=
  match req with
  | Some th => if violated th then penalise st (penalty th) (r th) (Some c) else st
  | None => st
  end.

(** The requirement section, lines 68-113. *)
Definition requirement_penalties (reqs : requirements) (w : weather) (st : score_state)
  : score_state :=
  let temp := get (temperature w) default_temperature in
  let wind := get (wind_speed w) default_wind_speed in
  let precip := get (precipitation w) default_precipitation in
  let st := check_req st (min_temp reqs) (fun th => qlt temp th)
              (fun th => (th - temp) * 5) (TempTooLow temp)
              "Consider indoor alternatives or wait for warmer weather" in
  let st := check_req st (max_temp reqs) (fun th => qlt th temp)
              (fun th => (temp - th) * 3) (TempTooHigh temp)
              "Consider early morning or evening timing" in
  let st := check_req st (min_wind reqs) (fun th => qlt wind th)
              (fun th => (th - wind) * 2) (WindTooLight wind)
              "Wait for windier conditions or consider alternative activities" in
  let st := check_req st (max_wind reqs) (fun th => qlt th wind)
              (fun th => (wind - th) * 4) (WindTooStrong wind)
              "Consider indoor alternatives or wait for calmer conditions" in
  let st := check_req st (max_precipitation reqs) (fun th => qlt th precip)
              (fun th => (precip - th) * 8) (TooMuchPrecipitation precip)
              "Consider indoor alternatives or wait for drier conditions" in
  match min_visibility reqs with
  | Some th =>
      let vis := get (visibility w) default_visibility in
      if qlt vis th then
        penalise st ((th - vis) * 3) (PoorVisibility vis th)
          (Some "Wait for clearer conditions")
      else st
  | None => st
  end.

(** The category if/elif chain, lines 115-134. *)
Definition category_adjustment (category : string) (w : weather) (st : score_state)
  : score_state :=
  let temp := get (temperature w) default_temperature in
  let wind := get (wind_speed w) default_wind_speed in
  let cond := get (condition w) default_condition in
  if String.eqb category "sunny_friendly" && str_in cond ["rainy"; "snowy"; "stormy"] then
    penalise st 30 (RText "Weather not suitable for outdoor sunny activities")
      (Some "Consider indoor alternatives or wait for better weather")
  else if String.eqb category "rain_compatible" && str_in cond ["sunny"; "cloudy"] then
    penalise st (-10) (RText "Perfect weather for this indoor activity") None
  else if String.eqb category "wind_based" && qlt wind 5 then
    penalise st 20 (RText "Insufficient wind for wind-based activities")
      (Some "Wait for windier conditions")
  else if String.eqb category "cold_weather" && qlt 10 temp then
    penalise st 25 (RText "Too warm for cold-weather activities")
      (Some "Consider winter alternatives or wait for colder weather")
  else st.

(** The comfort adjustments, lines 136-145. *)
Definition comfort_adjustments (w : weather) (st : score_state) : score_state :=
  let hum := get (humidity w) default_humidity in
  let wind := get (wind_speed w) default_wind_speed in
  let st := if qlt 80 hum then
              penalise st 10 (RText "High humidity may cause discomfort")
                (Some "Stay hydrated and take breaks")
            else st in
  if qlt 20 wind then
    penalise st 15 (RText "Strong winds may cause discomfort")
      (Some "Dress appropriately and secure loose items")
  else st.

(** The summary band, lines 150-158. *)
Definition summary_reason (score : Q) : reason :=
  if Qle_bool 80 score then RText "Excellent weather conditions for this event"
  else if Qle_bool 60 score then RText "Good weather conditions for this event"
  else if Qle_bool 40 score then RText "Moderate weather conditions - proceed with caution"
  else RText "Poor weather conditions for this event".

Definition raw_state (e : event) (w : weather) : score_state :=
  comfort_adjustments w
    (category_adjustment (ev_category e) w
       (requirement_penalties (weather_requirements e) w (mkSS 100 [] []))).

(** [_calculate_score(event, weather_data)]: [(score, reasons, recommendations)]. *)
Definition calculate_score (e : event) (w : weather) : Q * list reason * list string :=
  let st := raw_state e w in
  let score := py_max 0 (py_min 100 (ss_score st)) in
  (score, ss_reasons st ++ [summary_reason score], ss_recs st).

(** ** EventScoringService.get_event_recommendations *)

(** An [EventSuitabilityScore]. *)
Record suitability := mkSuit {
  su_event_id : string;
  su_event_name : string;
  su_score : Q;
  su_reasons : list reason;
  su_recommendations : list string
}.

(** [if categories: filtered_events = [e for e in self.events if e["category"] in categories]];
    an empty list is falsy in Python. *)
Definition filter_events (events : list event) (categories : option (list string))
  : list event :=
  match categories with
  | Some ((_ :: _) as cats) => filter (fun e => str_in (ev_category e) cats) events
  | _ => events
  end.

(** The body of the loop: score the event, keep it when
    [score >= event["min_comfort_score"]].  [_calculate_score] raises no
    exception on a well-typed entry, so the [except] branch is never taken. *)
Definition score_event (w : weather) (e : event) : list suitability :=
  let '(score, reasons, recs) := calculate_score e w in
  if Qle_bool (min_comfort_score e) score
  then [mkSuit (ev_id e) (ev_name e) score reasons recs]
  else [].

(** [list.sort(key=lambda x: x.score, reverse=True)]: Python's sort is stable,
    and with [reverse=True] equal keys keep their original order.  This is the
    insertion sort with that ordering: [x] goes in front of every element
    whose score is not greater than its own. *)
Fixpoint insert_desc (x : suitability) (l : list suitability) : list suitability :=
  match l with
  | [] => [x]
  | y :: l' => if Qle_bool (su_score y) (su_score x) then x :: l
               else y :: insert_desc x l'
  end.

Fixpoint sort_desc (l : list suitability) : list suitability :=
  match l with
  | [] => []
  | x :: l' => insert_desc x (sort_desc l')
  end.

(** The scored candidates, in catalog order. *)
Definition candidates (events : list event) (w : weather) (categories : option (list string))
  : list suitability :=
  flat_map (score_event w) (filter_events events categories).

(** [get_event_recommendations(weather_data, forecast_type, categories)];
    [forecast_type] is never read. *)
Definition get_event_recommendations (events : list event) (w : weather)
  (forecast_type : string) (categories : option (list string)) : list suitability :=
  firstn 10 (sort_desc (candidates events w categories)).

(** ** ClothingRecommendationService.get_recommendations *)

Inductive clothing_item :=
| UMBRELLA | SUNGLASSES | JACKET | SUNSCREEN | BOOTS | HAT | GLOVES | SCARF.

(** The [reason] of a [ClothingRecommendation]; the two UV f-strings carry
    the UV index they format. *)
Inductive clothing_reason :=
| CText (s : string)
| VeryHighUV (uv : Q)
| HighUV (uv : Q).

(** A [ClothingRecommendation]; its [icon] is [clothing_icons[item]], a
    function of [item], and is left out. *)
Record clothing_rec := mkCR {
  cr_item : clothing_item;
  cr_priority : Z;
  cr_reason : clothing_reason
}.

Record outfit := mkOutfit {
  of_location : string;
  of_forecast_type : string;
  of_recommendations : list clothing_rec;
  of_comfort_tips : list string
}.

Definition cr (i : clothing_item) (p : Z) (s : string) : clothing_rec := mkCR i p (CText s).

(** Temperature section, lines 30-134: (items, tips). *)
Definition temperature_recs (temp : Q) : list clothing_rec * list string :=
  if qlt temp 0 then
    ([cr JACKET 5 "Very cold weather - heavy winter jacket essential";
      cr GLOVES 5 "Protect hands from freezing temperatures";
      cr SCARF 4 "Protect neck and face from cold";
      cr BOOTS 4 "Warm, waterproof footwear essential"],
     ["Layer up with thermal clothing"; "Keep extremities warm to prevent frostbite"])
  else if qlt temp 10 then
    ([cr JACKET 4 "Cold weather - warm jacket recommended";
      cr GLOVES 3 "Protect hands from cold";
      cr BOOTS 3 "Warm, comfortable footwear"],
     ["Wear layers for easy temperature adjustment"])
  else if qlt temp 20 then
    ([cr JACKET 2 "Light jacket for cool weather"], ["Dress in layers for comfort"])
  else if qlt 30 temp then
    ([cr SUNGLASSES 4 "Protect eyes from bright sun";
      cr SUNSCREEN 5 "Essential protection from UV rays";
      cr HAT 4 "Protect head from sun and heat"],
     ["Wear light, breathable fabrics"; "Stay hydrated and take breaks in shade"])
  else if qlt 25 temp then
    ([cr SUNGLASSES 3 "Protect eyes from sun";
      cr SUNSCREEN 4 "Protect skin from UV rays"],
     ["Wear light, comfortable clothing"])
  else ([], []).

(** Precipitation section, lines 136-176. *)
Definition precipitation_recs (precip : Q) : list clothing_rec * list string :=
  if qlt 5 precip then
    ([cr UMBRELLA 5 "Heavy rain expected - umbrella essential";
      cr BOOTS 4 "Waterproof footwear for wet conditions";
      cr JACKET 4 "Waterproof jacket recommended"],
     ["Avoid cotton clothing - it stays wet longer"; "Consider waterproof bags for electronics"])
  else if qlt 1 precip then
    ([cr UMBRELLA 3 "Light rain expected"; cr JACKET 2 "Light rain protection"],
     ["Quick-drying fabrics recommended"])
  else ([], []).

(** Wind section, lines 178-206. *)
Definition wind_recs (wind : Q) : list clothing_rec * list string :=
  if qlt 20 wind then
    ([cr JACKET 3 "Windy conditions - windproof jacket recommended";
      cr HAT 3 "Secure hat to protect from wind"],
     ["Secure loose items and hair"; "Consider windproof layers"])
  else if qlt 15 wind then
    ([cr JACKET 2 "Moderate wind - light windbreaker"], ["Dress in layers for wind protection"])
  else ([], []).

(** UV section, lines 208-248. *)
Definition uv_recs (uv : Q) : list clothing_rec * list string :=
  if qlt 7 uv then
    ([mkCR SUNSCREEN 5 (VeryHighUV uv);
      cr SUNGLASSES 4 "Protect eyes from intense UV";
      cr HAT 4 "Protect head from intense sun"],
     ["Seek shade during peak sun hours (10 AM - 4 PM)"; "Reapply sunscreen every 2 hours"])
  else if qlt 5 uv then
    ([mkCR SUNSCREEN 4 (HighUV uv); cr SUNGLASSES 3 "Protect eyes from UV"],
     ["Apply sunscreen before going outside"])
  else ([], []).

(** Humidity tips, lines 250-255. *)
Definition humidity_tips (hum : Q) : list string :=
  if qlt 80 hum then
    ["High humidity - wear breathable fabrics"; "Stay hydrated and take frequent breaks"]
  else if qlt hum 30 then ["Low humidity - use moisturizer and stay hydrated"]
  else [].

(** Forecast-type tips, lines 257-262. *)
Definition forecast_tips (forecast_type : string) : list string :=
  if String.eqb forecast_type "long_term" then
    ["Plan ahead for seasonal weather changes"; "Consider versatile clothing options"]
  else ["Check weather updates throughout the day"].

(** [recommendations.sort(key=lambda x: x.priority, reverse=True)], stable. *)
Fixpoint insert_prio (x : clothing_rec) (l : list clothing_rec) : list clothing_rec :=
  match l with
  | [] => [x]
  | y :: l' => if Z.leb (cr_priority y) (cr_priority x) then x :: l
               else y :: insert_prio x l'
  end.

Fixpoint sort_prio (l : list clothing_rec) : list clothing_rec :=
  match l with
  | [] => []
  | x :: l' => insert_prio x (sort_prio l')
  end.

(** [get_recommendations(weather_data, forecast_type, location)]. *)
Definition get_recommendations (w : weather) (forecast_type location : string) : outfit :=
  let temp := get (temperature w) default_temperature in
  let hum := get (humidity w) default_humidity in
  let wind := get (wind_speed w) default_wind_speed in
  let precip := get (precipitation w) default_precipitation in
  let uv := get (uv_index w) default_uv_index in
  let '(r1, t1) := temperature_recs temp in
  let '(r2, t2) := precipitation_recs precip in
  let '(r3, t3) := wind_recs wind in
  let '(r4, t4) := uv_recs uv in
  mkOutfit location forecast_type (sort_prio (r1 ++ r2 ++ r3 ++ r4))
    (t1 ++ t2 ++ t3 ++ t4 ++ humidity_tips hum ++ forecast_tips forecast_type).

(** ** WeatherService._calculate_comfort_index *)

(** A pydantic [WeatherData]: every field is present ([timestamp] is never
    read by the scorers and is left out). *)
Record weather_data := mkWD {
  wd_temperature : Q;
  wd_humidity : Q;
  wd_wind_speed : Q;
  wd_wind_direction : Q;
  wd_precipitation : Q;
  wd_cloud_cover : Q;
  wd_visibility : Q;
  wd_uv_index : Q;
  wd_condition : string
}.

Definition calculate_comfort_index (wd : weather_data) : Q :=
  let temp_score := py_max 0 (100 - Qabs (wd_temperature wd - (45 # 2)) * 4) in
  let humidity_score := py_max 0 (100 - Qabs (wd_humidity wd - 50) * (3 # 2)) in
  let wind_score := py_max 0 (100 - Qabs (wd_wind_speed wd - 8) * 5) in
  let precip_penalty := py_min 50 (wd_precipitation wd * 10) in
  let uv_penalty := py_min 30 (py_max 0 (wd_uv_index wd - 6) * 5) in
  let visibility_penalty := py_min 20 (py_max 0 (10 - wd_visibility wd) * 2) in
  let comfort := (temp_score + humidity_score + wind_score) / 3
                 - precip_penalty - uv_penalty - visibility_penalty in
  py_max 0 (py_min 100 comfort).

(** ** Python's [round(x, n)] *)

(** Round half to even, on the exact value of [q]. *)
Definition round_half_even (q : Q) : Z :=
  let f := Qfloor q in
  let r := q - inject_Z f in
  if qlt (1 # 2) r then (f + 1)%Z
  else if Qeq_bool r (1 # 2) then (if Z.even f then f else f + 1)%Z
  else f.

(** [round(x, n)]. *)
Definition py_round (q : Q) (n : nat) : Q :=
  let scale := (10 ^ Z.of_nat n)%Z in
  inject_Z (round_half_even (q * inject_Z scale)) / inject_Z scale.

(** [month in [..]] *)
Definition month_in (month : Z) (l : list Z) : bool := existsb (Z.eqb month) l.

(** A [ClimateProbability]. *)
Record climate_probability := mkCP {
  very_hot : Q;
  very_cold : Q;
  very_wet : Q;
  very_windy : Q;
  uncomfortable : Q
}.

(** ** WeatherService._generate_monthly_outlook *)

(** The values drawn by the six [random.uniform] calls of one outlook. *)
Record draws := mkDraws {
  dr_hot : Q; dr_cold : Q; dr_wet : Q; dr_windy : Q; dr_avg_temp : Q; dr_avg_precip : Q
}.

Inductive season := Winter | Spring | Summer | Fall.

(** The season flags, with the swap when [not lat > 0]; the [if/elif] chain
    tests summer first, then winter, then spring, otherwise fall. *)
Definition service_season (month : Z) (lat : Q) : season :=
  let w := month_in month [12; 1; 2]%Z in
  let sp := month_in month [3; 4; 5]%Z in
  let su := month_in month [6; 7; 8]%Z in
  let fa := month_in month [9; 10; 11]%Z in
  let '(w, sp, su, fa) := if qlt 0 lat then (w, sp, su, fa) else (su, fa, w, sp) in
  if su then Summer else if w then Winter else if sp then Spring else Fall.

(** The [random.uniform] ranges of each season, in draw order. *)
Definition service_ranges (s : season) : list (Q * Q) :=
  match s with
  | Summer => [(4#10, 8#10); (0, 1#10); (1#10, 4#10); (2#10, 5#10); (20, 30); (20, 80)]
  | Winter => [(0, 1#10); (3#10, 7#10); (2#10, 6#10); (3#10, 6#10); (-5, 10); (30, 100)]
  | Spring => [(1#10, 3#10); (1#10, 3#10); (2#10, 5#10); (3#10, 6#10); (10, 20); (40, 90)]
  | Fall => [(1#10, 4#10); (1#10, 4#10); (2#10, 5#10); (2#10, 5#10); (5, 20); (30, 80)]
  end.

Definition draws_list (d : draws) : list Q :=
  [dr_hot d; dr_cold d; dr_wet d; dr_windy d; dr_avg_temp d; dr_avg_precip d].

(** The draws are ones [random.uniform] can return for this season. *)
Definition draws_in_ranges (s : season) (d : draws) : bool :=
  forallb (fun '(x, (lo, hi)) => Qle_bool lo x && Qle_bool x hi)
    (combine (draws_list d) (service_ranges s)).

Record outlook := mkOutlook {
  ol_probabilities : climate_probability;
  ol_avg_temperature : Q;
  ol_avg_precipitation : Q
}.

Definition generate_monthly_outlook (month : Z) (lat lon : Q) (d : draws) : outlook :=
  let unc := py_min 1 ((dr_hot d + dr_cold d + dr_windy d) / 3 + dr_wet d * (5 # 10)) in
  mkOutlook
    (mkCP (py_round (dr_hot d) 2) (py_round (dr_cold d) 2) (py_round (dr_wet d) 2)
          (py_round (dr_windy d) 2) (py_round unc 2))
    (py_round (dr_avg_temp d) 1) (py_round (dr_avg_precip d) 1).

(** ** SeasonalProbabilityModel (ml/probabilities.py) *)

(** [self.climate_zones]: zone name and ["lat_range"], in dict insertion order. *)
Definition climate_zones : list (string * (Q * Q)) :=
  [("tropical", (-(47 # 2), 47 # 2));
   ("subtropical", (47 # 2, 35));
   ("temperate", (35, 50));
   ("continental", (50, 70));
   ("polar", (70, 90))].

(** The [for] loop of [get_climate_zone]: first zone with
    [min_lat <= abs_lat <= max_lat]. *)
Fixpoint first_zone (abs_lat : Q) (zones : list (string * (Q * Q))) : option string :=
  match zones with
  | [] => None
  | (zone, (min_lat, max_lat)) :: zs =>
      if Qle_bool min_lat abs_lat && Qle_bool abs_lat max_lat then Some zone
      else first_zone abs_lat zs
  end.

Definition get_climate_zone (latitude : Q) : string :=
  match first_zone (Qabs latitude) climate_zones with
  | Some zone => zone
  | None => "temperate"
  end.

(** The keys of the probability dictionaries. *)
Inductive prob_key := KHot | KCold | KWet | KWindy | KUnc | KAvgTemp | KAvgPrecip.

Definition prob_key_eqb (a b : prob_key) : bool :=
  match a, b with
  | KHot, KHot | KCold, KCold | KWet, KWet | KWindy, KWindy | KUnc, KUnc
  | KAvgTemp, KAvgTemp | KAvgPrecip, KAvgPrecip => true
  | _, _ => false
  end.

(** A dictionary with [prob_key] keys, as an association list. *)
Definition pdict := list (prob_key * Q).

(** [d.get(key, 0)] *)
Fixpoint pget (d : pdict) (k : prob_key) : Q :=
  match d with
  | [] => 0
  | (k', v) :: d' => if prob_key_eqb k k' then v else pget d' k
  end.

Definition all_keys : list prob_key := [KHot; KCold; KWet; KWindy; KUnc; KAvgTemp; KAvgPrecip].

Definition mk_base (h c w wi u t p : Q) : pdict :=
  [(KHot, h); (KCold, c); (KWet, w); (KWindy, wi); (KUnc, u); (KAvgTemp, t); (KAvgPrecip, p)].

Definition get_base_probabilities (climate_zone : string) (month : Z) : pdict :=
  let is_winter := month_in month [12; 1; 2]%Z in
  let is_spring := month_in month [3; 4; 5]%Z in
  let is_summer := month_in month [6; 7; 8]%Z in
  if str_in climate_zone ["tropical"; "subtropical"] then
    if is_winter then mk_base (1#10) 0 (3#10) (2#10) (2#10) 25 60
    else if is_summer then mk_base (4#10) 0 (4#10) (3#10) (3#10) 28 80
    else mk_base (2#10) 0 (3#10) (2#10) (2#10) 26 70
  else if String.eqb climate_zone "temperate" then
    if is_winter then mk_base 0 (3#10) (4#10) (4#10) (3#10) 5 80
    else if is_summer then mk_base (2#10) 0 (2#10) (3#10) (2#10) 22 50
    else if is_spring then mk_base (1#10) (1#10) (3#10) (4#10) (2#10) 15 70
    else mk_base (1#10) (2#10) (3#10) (3#10) (2#10) 12 60
  else if String.eqb climate_zone "continental" then
    if is_winter then mk_base 0 (6#10) (2#10) (5#10) (5#10) (-10) 30
    else if is_summer then mk_base (3#10) 0 (3#10) (2#10) (2#10) 20 60
    else mk_base (1#10) (3#10) (2#10) (4#10) (3#10) 5 40
  else
    if is_winter then mk_base 0 (8#10) (1#10) (6#10) (7#10) (-25) 20
    else if is_summer then mk_base 0 (2#10) (2#10) (4#10) (3#10) 5 40
    else mk_base 0 (5#10) (1#10) (5#10) (5#10) (-10) 25.

Definition get_latitude_adjustments (latitude : Q) (month : Z) : pdict :=
  let abs_lat := Qabs latitude in
  if qlt 60 abs_lat then
    [(KCold, if month_in month [12; 1; 2]%Z then 2#10 else -(1#10));
     (KHot, if month_in month [6; 7; 8]%Z then 1#10 else -(1#10))]
  else if qlt 40 abs_lat then
    [(KCold, if month_in month [12; 1; 2]%Z then 1#10 else -(5#100));
     (KHot, if month_in month [6; 7; 8]%Z then 1#10 else -(5#100))]
  else [].

Definition get_longitude_adjustments (longitude latitude : Q) : pdict :=
  if qlt (-100) longitude && qlt longitude 100 then
    [(KHot, 1#10); (KCold, 1#10); (KWindy, 1#10)]
  else
    [(KHot, -(1#10)); (KCold, -(1#10)); (KWet, 1#10)].

(** [final_probs[key] = max(0, min(1, base + lat.get(key, 0) + lon.get(key, 0)))] *)
Definition final_prob (base lat_adj lon_adj : pdict) (k : prob_key) : Q :=
  py_max 0 (py_min 1 (pget base k + pget lat_adj k + pget lon_adj k)).

Definition calculate_month_probabilities (month : Z) (climate_zone : string)
  (latitude longitude : Q) : outlook :=
  let base := get_base_probabilities climate_zone month in
  let lat_adj := get_latitude_adjustments latitude month in
  let lon_adj := get_longitude_adjustments longitude latitude in
  let fp := final_prob base lat_adj lon_adj in
  mkOutlook
    (mkCP (py_round (fp KHot) 2) (py_round (fp KCold) 2) (py_round (fp KWet) 2)
          (py_round (fp KWindy) 2) (py_round (fp KUnc) 2))
    (py_round (fp KAvgTemp) 1) (py_round (fp KAvgPrecip) 1).

(** One month of [calculate_monthly_probabilities(latitude, longitude)]. *)
Definition monthly_probabilities (latitude longitude : Q) (month : Z) : outlook :=
  calculate_month_probabilities month (get_climate_zone latitude) latitude longitude.

(** The §3 invariant of a [ClimateProbability]. *)
Definition uncomfortable_formula (p : climate_probability) : Q :=
  py_max 0 (py_min 1 ((very_hot p + very_cold p + very_windy p) / 3 + very_wet p * (5 # 10))).

(** ** Definitions following the spec's words, compared with the code above *)

(** §4.6: "tropical <23.5°, subtropical <35°, temperate <50°, continental <70°,
    polar ≥70°" on [|latitude|]. *)
Definition spec_climate_zone (latitude : Q) : string :=
  let a := Qabs latitude in
  if qlt a (47 # 2) then "tropical"
  else if qlt a 35 then "subtropical"
  else if qlt a 50 then "temperate"
  else if qlt a 70 then "continental"
  else "polar".

(** §4.1, with the mathematical [max], [min] and [| |]. *)
Definition comfort_index_spec (wd : weather_data) : Q :=
  let t := Qmax 0 (100 - Qabs (wd_temperature wd - (45 # 2)) * 4) in
  let h := Qmax 0 (100 - Qabs (wd_humidity wd - 50) * (3 # 2)) in
  let w := Qmax 0 (100 - Qabs (wd_wind_speed wd - 8) * 5) in
  let pp := Qmin 50 (wd_precipitation wd * 10) in
  let up := Qmin 30 (Qmax 0 (wd_uv_index wd - 6) * 5) in
  let vp := Qmin 20 (Qmax 0 (10 - wd_visibility wd) * 2) in
  Qmax 0 (Qmin 100 ((t + h + w) / 3 - pp - up - vp)).

(** §7: the mapping with every absent field filled with its documented
    default. *)
Definition fill_defaults (w : weather) : weather :=
  mkWeather (Some (get (temperature w) 20)) (Some (get (humidity w) 50))
    (Some (get (wind_speed w) 10)) (Some (get (precipitation w) 0))
    (Some (get (visibility w) 10)) (Some (get (uv_index w) 5))
    (cloud_cover w) (Some (get (condition w) "sunny")).

(** A reading with its precipitation set. *)
Definition with_precipitation (w : weather) (p : Q) : weather :=
  mkWeather (temperature w) (humidity w) (wind_speed w) (Some p)
    (visibility w) (uv_index w) (cloud_cover w) (condition w).

(** A reading with its UV index and cloud cover replaced. *)
Definition with_uv_cloud (w : weather) (uv cc : option Q) : weather :=
  mkWeather (temperature w) (humidity w) (wind_speed w) (precipitation w)
    (visibility w) uv cc (condition w).

Definition score_of (e : event) (w : weather) : Q := fst (fst (calculate_score e w)).

(** The amount [check_req] subtracts from the score. *)
Definition req_penalty (req : option Q) (violated : Q -> bool) (penalty : Q -> Q) : Q :=
  match req with
  | Some th => if violated th then penalty th else 0
  | None => 0
  end.

Definition zero_state : score_state := mkSS 0 [] [].

(** The "museum" entry of the default catalog ([db.py]). *)
Definition museum_event : event :=
  mkEvent "museum" "Museum Tour" "rain_compatible"
    (mkReq (Some 5) None None (Some 30) (Some 50) None) 30.

(** A mapping with no key at all. *)
Definition empty_weather : weather := mkWeather None None None None None None None None.

(** ** Further code of the services and routes *)

(** *** WeatherService._map_weather_condition *)

(** [condition_map], in insertion order; values are the [WeatherCondition]
    strings. *)
Definition condition_map : list (string * string) :=
  [("Clear", "sunny"); ("Clouds", "cloudy"); ("Rain", "rainy"); ("Drizzle", "rainy");
   ("Snow", "snowy"); ("Thunderstorm", "stormy"); ("Mist", "foggy"); ("Fog", "foggy");
   ("Haze", "foggy")].

(** A dictionary lookup on string keys. *)
Fixpoint assoc_get (k : string) (d : list (string * string)) : option string :=
  match d with
  | [] => None
  | (k', v) :: d' => if String.eqb k k' then Some v else assoc_get k d'
  end.

(** [condition_map.get(condition, WeatherCondition.CLOUDY)] *)
Definition map_weather_condition (c : string) : string :=
  get (assoc_get c condition_map) "cloudy".

(** *** The weather argument the routes hand to the scorers *)

(** [weather_data] is a dict on the long-term path of the routes, but the
    short-term path passes [forecast.current], a pydantic [WeatherData]
    object, which has no [.get] method. *)
Inductive weather_arg :=
| WDict (w : weather)
| WModel (wd : weather_data).

(** [_calculate_score(event, weather_data)]; [None] is the [AttributeError]
    its first [weather_data.get(...)] raises on a [WeatherData] object. *)
Definition calculate_score_arg (e : event) (a : weather_arg)
  : option (Q * list reason * list string) :=
  match a with
  | WDict w => Some (calculate_score e w)
  | WModel _ => None
  end.

(** The loop body of [get_event_recommendations], with its
    [except Exception: continue]. *)
Definition score_event_arg (a : weather_arg) (e : event) : list suitability :=
  match calculate_score_arg e a with
  | Some (score, reasons, recs) =>
      if Qle_bool (min_comfort_score e) score
      then [mkSuit (ev_id e) (ev_name e) score reasons recs]
      else []
  | None => []
  end.

(** [get_event_recommendations] on either kind of argument. *)
Definition get_event_recommendations_arg (events : list event) (a : weather_arg)
  (forecast_type : string) (categories : option (list string)) : list suitability :=
  firstn 10 (sort_desc (flat_map (score_event_arg a) (filter_events events categories))).

(** The exceptions of [calculate_event_score]. *)
Inductive score_error :=
| EventNotFound (event_id : string)   (* the [ValueError] *)
| AttributeError.                     (* [.get] on a [WeatherData] *)

(** [EventScoringService.calculate_event_score(event_id, weather_data)]:
    the first event with that id. *)
Definition calculate_event_score (events : list event) (event_id : string) (a : weather_arg)
  : score_error + suitability :=
  match find (fun e => String.eqb (ev_id e) event_id) events with
  | None => inl (EventNotFound event_id)
  | Some e =>
      match calculate_score_arg e a with
      | Some (score, reasons, recs) => inr (mkSuit event_id (ev_name e) score reasons recs)
      | None => inl AttributeError
      end
  end.

(** The dictionary the routes build from the first monthly outlook on the
    long-term path. *)
Definition long_term_weather (o : outlook) : weather :=
  mkWeather (Some (ol_avg_temperature o)) (Some 60) (Some 10) (Some (ol_avg_precipitation o))
    None None None (Some "sunny").

(** *** The month sequences *)

(** [(current_month + i - 1) % 12 + 1] for [i in range(n)]; Python's [%]
    with a positive divisor is [Z.modulo]. *)
Definition month_sequence (current_month : Z) (n : nat) : list Z :=
  map (fun i => ((current_month + Z.of_nat i - 1) mod 12 + 1)%Z) (seq 0 n).

Definition month_names : list string :=
  ["January"; "February"; "March"; "April"; "May"; "June";
   "July"; "August"; "September"; "October"; "November"; "December"].

(** Python's [l[i]]: negative indices count from the end; [None] is the
    [IndexError]. *)
Definition py_index {A} (l : list A) (i : Z) : option A :=
  let n := Z.of_nat (List.length l) in
  if (0 <=? i)%Z && (i <? n)%Z then nth_error l (Z.to_nat i)
  else if (- n <=? i)%Z && (i <? 0)%Z then nth_error l (Z.to_nat (n + i))
  else None.

(** A [MonthlyOutlook]. *)
Record monthly_outlook := mkMO {
  mo_month : Z;
  mo_month_name : option string;
  mo_outlook : outlook
}.

(** The [monthly_outlooks] of [WeatherService.get_long_term_forecast], for
    the month [datetime.now().month] and the draws of the [i]-th month. *)
Definition long_term_outlooks (current_month : Z) (lat lon : Q) (draws_of : nat -> draws)
  : list monthly_outlook :=
  map (fun '(i, month) =>
         mkMO month (py_index month_names (month - 1))
              (generate_monthly_outlook month lat lon (draws_of i)))
      (combine (seq 0 6) (month_sequence current_month 6)).

(** [SeasonalProbabilityModel.calculate_monthly_probabilities(latitude,
    longitude, months_ahead)] for the month [datetime.now().month];
    [range(months_ahead)] is empty when [months_ahead <= 0]. *)
Definition calculate_monthly_probabilities (current_month : Z) (latitude longitude : Q)
  (months_ahead : Z) : list monthly_outlook :=
  let climate_zone := get_climate_zone latitude in
  map (fun month =>
         mkMO month (py_index month_names (month - 1))
              (calculate_month_probabilities month climate_zone latitude longitude))
      (month_sequence current_month (Z.to_nat months_ahead)).

(** The five published probabilities of an outlook. *)
Definition probabilities_list (p : climate_probability) : list Q :=
  [very_hot p; very_cold p; very_wet p; very_windy p; uncomfortable p].

(** The hemisphere swap of [_generate_monthly_outlook]. *)
Definition swap_season (s : season) : season :=
  match s with Winter => Summer | Summer => Winter | Spring => Fall | Fall => Spring end.

(** A fully populated [WeatherData] with precipitation or visibility set. *)
Definition wd_with_precipitation (wd : weather_data) (p : Q) : weather_data :=
  mkWD (wd_temperature wd) (wd_humidity wd) (wd_wind_speed wd) (wd_wind_direction wd) p
       (wd_cloud_cover wd) (wd_visibility wd) (wd_uv_index wd) (wd_condition wd).

Definition wd_with_visibility (wd : weather_data) (v : Q) : weather_data :=
  mkWD (wd_temperature wd) (wd_humidity wd) (wd_wind_speed wd) (wd_wind_direction wd)
       (wd_precipitation wd) (wd_cloud_cover wd) v (wd_uv_index wd) (wd_condition wd).

Definition has_item (i : clothing_item) (r : clothing_rec) : bool :=
  match cr_item r, i with
  | UMBRELLA, UMBRELLA | SUNGLASSES, SUNGLASSES | JACKET, JACKET | SUNSCREEN, SUNSCREEN
  | BOOTS, BOOTS | HAT, HAT | GLOVES, GLOVES | SCARF, SCARF => true
  | _, _ => false
  end.

(** The recommendations of the four sections, in rule order, before the sort. *)
Definition unsorted_clothing (w : weather) : list clothing_rec :=
  fst (temperature_recs (get (temperature w) default_temperature)) ++
  fst (precipitation_recs (get (precipitation w) default_precipitation)) ++
  fst (wind_recs (get (wind_speed w) default_wind_speed)) ++
  fst (uv_recs (get (uv_index w) default_uv_index)).

(** *** Helpers of the further properties *)

(** Every appended recommendation comes with an appended reason. *)
Definition recs_le_reasons (st : score_state) : Prop :=
  (List.length (ss_recs st) <= List.length (ss_reasons st))%nat.

(** The [sample_events] of [init_db] ([db.py]); the skiing entry's
    ["min_precipitation"] is never read by [_calculate_score] and has no
    field. *)
Definition sample_events : list event :=
  [mkEvent "concert" "Outdoor Concert" "sunny_friendly"
     (mkReq (Some 15) None None (Some 15) (Some 2) None) 70;
   museum_event;
   mkEvent "kite_festival" "Kite Festival" "wind_based"
     (mkReq (Some 10) None (Some 10) (Some 25) (Some 5) None) 60;
   mkEvent "skiing" "Skiing Adventure" "cold_weather"
     (mkReq None (Some 5) None (Some 20) None None) 50;
   mkEvent "hiking" "Mountain Hiking" "sunny_friendly"
     (mkReq (Some 10) None None (Some 20) (Some 5) (Some 5)) 80].

(** A cool, breezy, dry reading. *)
Definition cool_weather : weather :=
  mkWeather (Some 12) (Some 55) (Some 12) (Some 0) (Some 10) (Some 4) (Some 20) (Some "sunny").

(** The fourth entry of the ranking of the sample catalog on [cool_weather]. *)
Definition ranked_fourth : suitability :=
  nth 3 (get_event_recommendations sample_events cool_weather "short_term" None)
    (mkSuit "" "" 0 [] []).

(** The priorities and the number of items of each section. *)
Definition section_ok (n : nat) (l : list clothing_rec) : bool :=
  forallb (fun r => (2 <=? cr_priority r)%Z && (cr_priority r <=? 5)%Z) l
  && Nat.leb (List.length l) n.

(** Which items each section can recommend. *)
Definition items_of (l : list clothing_rec) : list bool :=
  map (fun i => existsb (has_item i) l)
    [UMBRELLA; SUNGLASSES; JACKET; SUNSCREEN; BOOTS; HAT; GLOVES; SCARF].

(** A mild [WeatherData] reading. *)
Definition mild_weather_data : weather_data := mkWD 20 50 8 0 0 0 10 5 "sunny".

(** Draws of a northern July outlook, within the summer ranges. *)
Definition july_draws : draws := mkDraws (1 # 2) (1 # 20) (1 # 5) (3 # 10) 25 50.

(** ** Theorems *)

Lemma qlt_true (a b : Q) : qlt a b = true <-> a < b.
Proof.
  unfold qlt. rewrite negb_true_iff. split; intro H.
  - apply Qnot_le_lt. intro H'. apply Qle_bool_iff in H'. congruence.
  - destruct (Qle_bool b a) eqn:E; [|reflexivity].
    apply Qle_bool_iff in E. exfalso. apply (Qlt_not_le a b); assumption.
Qed.

Lemma qlt_false (a b : Q) : qlt a b = false <-> b <= a.
Proof.
  unfold qlt. rewrite negb_false_iff. apply Qle_bool_iff.
Qed.

Lemma Qle_bool_false (a b : Q) : Qle_bool a b = false -> b < a.
Proof.
  intro H. apply Qnot_le_lt. intro H'. apply Qle_bool_iff in H'. congruence.
Qed.

(** Decide the first [Qle_bool] test of a chain of [&&]-guarded [if]s. *)
Ltac if_step :=
  match goal with
  | |- context [Qle_bool ?a ?b && _] =>
      let E := fresh "E" in
      destruct (Qle_bool a b) eqn:E;
      [apply Qle_bool_iff in E | apply Qle_bool_false in E]; simpl
  | |- context [Qle_bool ?a ?b] =>
      let E := fresh "E" in
      destruct (Qle_bool a b) eqn:E;
      [apply Qle_bool_iff in E | apply Qle_bool_false in E]; simpl
  end.

(** Decide one [qlt] test. *)
Ltac case_qlt a b :=
  let E := fresh "E" in
  destruct (qlt a b) eqn:E; [apply qlt_true in E | apply qlt_false in E].

(** Decide every [qlt] and [Qle_bool] test of the goal, keeping its meaning. *)
Ltac case_tests :=
  repeat match goal with
  | |- context [qlt ?a ?b] =>
      let E := fresh "E" in
      destruct (qlt a b) eqn:E;
      [apply qlt_true in E | apply qlt_false in E]; cbv beta iota
  | |- context [Qle_bool ?a ?b] =>
      let E := fresh "E" in
      destruct (Qle_bool a b) eqn:E;
      [apply Qle_bool_iff in E | apply Qle_bool_false in E]; cbv beta iota
  end.

(** *** C1: climate zones *)

(** C1 (counterexample): at [|latitude| = 23.5] the code answers "tropical",
    the spec's half-open bands answer "subtropical". *)
Lemma C1_boundary_counterexample :
  get_climate_zone (47 # 2) = "tropical" /\
  spec_climate_zone (47 # 2) = "subtropical" /\
  get_climate_zone (47 # 2) <> spec_climate_zone (47 # 2).
Proof. vm_compute. split; [reflexivity | split; [reflexivity | discriminate]]. Qed.

(** C1 (amended): [get_climate_zone] takes the first zone whose closed
    range contains [|latitude|]: tropical when [|lat| <= 23.5], subtropical
    when [23.5 < |lat| <= 35], temperate when [35 < |lat| <= 50], continental
    when [50 < |lat| <= 70], polar when [70 < |lat| <= 90], and the fallback
    "temperate" when [|lat| > 90]. *)
Theorem get_climate_zone_bands (lat : Q) :
  (Qabs lat <= 47 # 2 -> get_climate_zone lat = "tropical") /\
  (47 # 2 < Qabs lat -> Qabs lat <= 35 -> get_climate_zone lat = "subtropical") /\
  (35 < Qabs lat -> Qabs lat <= 50 -> get_climate_zone lat = "temperate") /\
  (50 < Qabs lat -> Qabs lat <= 70 -> get_climate_zone lat = "continental") /\
  (70 < Qabs lat -> Qabs lat <= 90 -> get_climate_zone lat = "polar") /\
  (90 < Qabs lat -> get_climate_zone lat = "temperate").
Proof.
  pose proof (Qabs_nonneg lat) as Hn.
  unfold get_climate_zone; cbn [first_zone climate_zones].
  generalize dependent (Qabs lat). intros a Hn.
  repeat split; intros; repeat (first [reflexivity | exfalso; lra | if_step]).
Qed.

(** *** C2: the [uncomfortable] probability *)

(** Draws of one summer outlook of [WeatherService], within their ranges. *)
Definition summer_draws : draws := mkDraws (444 # 1000) (4 # 1000) (104 # 1000) (204 # 1000) 25 50.

(** C2 (counterexample): in [WeatherService] (July, latitude 40) the published
    [uncomfortable] is 0.27 while the formula on the published, rounded
    probabilities gives 0.2633...; in [SeasonalProbabilityModel]
    (latitude 51, longitude 0, January) it is the table value 0.5 while the
    formula gives 0.5833.... *)
Lemma C2_uncomfortable_counterexample :
  draws_in_ranges (service_season 7 40) summer_draws = true /\
  ~ (uncomfortable (ol_probabilities (generate_monthly_outlook 7 40 0 summer_draws))
     == uncomfortable_formula (ol_probabilities (generate_monthly_outlook 7 40 0 summer_draws))) /\
  ~ (uncomfortable (ol_probabilities (monthly_probabilities 51 0 1))
     == uncomfortable_formula (ol_probabilities (monthly_probabilities 51 0 1))).
Proof.
  split; [vm_compute; reflexivity|].
  split; unfold Qeq; vm_compute; discriminate.
Qed.

Lemma latitude_adjustments_unc (lat : Q) (month : Z) :
  pget (get_latitude_adjustments lat month) KUnc = 0.
Proof.
  unfold get_latitude_adjustments.
  destruct (qlt 60 (Qabs lat)), (qlt 40 (Qabs lat)),
    (month_in month [12; 1; 2]%Z), (month_in month [6; 7; 8]%Z); reflexivity.
Qed.

Lemma longitude_adjustments_unc (lon lat : Q) :
  pget (get_longitude_adjustments lon lat) KUnc = 0.
Proof.
  unfold get_longitude_adjustments. destruct (_ && _); reflexivity.
Qed.

Lemma base_probabilities_unc (zone : string) (month : Z) :
  let u := pget (get_base_probabilities zone month) KUnc in
  u = 2 # 10 \/ u = 3 # 10 \/ u = 5 # 10 \/ u = 7 # 10.
Proof.
  unfold get_base_probabilities.
  destruct (str_in zone _), (String.eqb zone "temperate"), (String.eqb zone "continental"),
    (month_in month [12; 1; 2]%Z), (month_in month [3; 4; 5]%Z),
    (month_in month [6; 7; 8]%Z); simpl; tauto.
Qed.

(** C2 (amended): [SeasonalProbabilityModel] publishes as [uncomfortable] the
    zone/season table value (no adjustment touches it, and clamping and
    rounding leave it unchanged), not a value derived from the other four;
    [WeatherService._generate_monthly_outlook] publishes
    [round(min(1, (hot + cold + windy)/3 + wet*0.5), 2)] of the unrounded
    draws, whose own published values are rounded separately. *)
Theorem uncomfortable_published (lat lon : Q) (month : Z) (d : draws) :
  uncomfortable (ol_probabilities (monthly_probabilities lat lon month))
    == pget (get_base_probabilities (get_climate_zone lat) month) KUnc /\
  uncomfortable (ol_probabilities (generate_monthly_outlook month lat lon d))
    = py_round (py_min 1 ((dr_hot d + dr_cold d + dr_windy d) / 3 + dr_wet d * (5 # 10))) 2.
Proof.
  split; [|reflexivity].
  cbv beta zeta delta [monthly_probabilities calculate_month_probabilities final_prob].
  cbn [ol_probabilities uncomfortable].
  rewrite latitude_adjustments_unc, longitude_adjustments_unc.
  destruct (base_probabilities_unc (get_climate_zone lat) month) as [H|[H|[H|H]]];
    rewrite H; vm_compute; reflexivity.
Qed.

(** *** C3: the worked matcher example *)

Definition example2_weather : weather :=
  mkWeather (Some 35) (Some 60) (Some 5) (Some 10) (Some 10) (Some 5) None (Some "sunny").

Definition example2_event : event :=
  mkEvent "example" "Example" "sunny_friendly"
    (mkReq None (Some 25) None None (Some 2) None) 0.

(** C3: on Example 2 the score is exactly [100 - (35-25)*3 - (10-2)*8 = 6] and
    the last reason is the "poor" band. *)
Theorem example2_score :
  score_of example2_event example2_weather == 100 - (35 - 25) * 3 - (10 - 2) * 8 /\
  score_of example2_event example2_weather == 6 /\
  last (snd (fst (calculate_score example2_event example2_weather))) (RText "")
    = RText "Poor weather conditions for this event".
Proof. vm_compute. repeat split; reflexivity. Qed.

(** *** C8: defaulting of absent fields *)

(** C8: the matcher and the clothing advisor give the same result on a
    mapping and on the mapping with every absent field filled with its
    documented default; both are total, no input is rejected. *)
Theorem missing_fields_defaulted (e : event) (w : weather) (forecast_type location : string) :
  calculate_score e w = calculate_score e (fill_defaults w) /\
  get_recommendations w forecast_type location
    = get_recommendations (fill_defaults w) forecast_type location.
Proof. split; reflexivity. Qed.

(** *** C9: an empty category filter *)

(** C9: [categories = []] is falsy, so every catalog entry is considered,
    exactly as with no filter. *)
Theorem empty_category_filter (events : list event) (w : weather) (forecast_type : string) :
  get_event_recommendations events w forecast_type (Some [])
    = get_event_recommendations events w forecast_type None.
Proof. reflexivity. Qed.

(** *** C10: UV index and cloud cover are never read by the matcher *)

(** C10: changing [uv_index] and [cloud_cover] changes neither the score, nor
    the reasons, nor the recommendations. *)
Theorem matcher_ignores_uv_cloud (e : event) (w : weather) (uv cc : option Q) :
  calculate_score e (with_uv_cloud w uv cc) = calculate_score e w.
Proof. destruct w; reflexivity. Qed.

(** *** C6: the worked clothing example *)

Definition example3_weather : weather :=
  mkWeather (Some (-3)) None (Some 25) (Some 8) None (Some 2) None None.

Definition is_jacket (r : clothing_rec) : bool :=
  match cr_item r with JACKET => true | _ => false end.

(** C6: on Example 3 the list holds three separate jacket entries, from the
    cold (5), precipitation (4) and wind (3) rules, is sorted by
    non-increasing priority, and starts with the priority-5 jacket. *)
Theorem example3_jackets (forecast_type location : string) :
  let recs := of_recommendations (get_recommendations example3_weather forecast_type location) in
  filter is_jacket recs =
    [cr JACKET 5 "Very cold weather - heavy winter jacket essential";
     cr JACKET 4 "Waterproof jacket recommended";
     cr JACKET 3 "Windy conditions - windproof jacket recommended"] /\
  Sorted (fun a b => (cr_priority b <= cr_priority a)%Z) recs /\
  hd_error recs = Some (cr JACKET 5 "Very cold weather - heavy winter jacket essential").
Proof.
  vm_compute. split; [reflexivity|split; [|reflexivity]].
  repeat constructor; discriminate.
Qed.


(** *** C7: the comfort index *)

Lemma py_max_Qmax (a b : Q) : py_max a b == Qmax a b.
Proof.
  unfold py_max. case_tests.
  - symmetry. apply Q.max_r. lra.
  - symmetry. apply Q.max_l. assumption.
Qed.

Lemma py_min_Qmin (a b : Q) : py_min a b == Qmin a b.
Proof.
  unfold py_min. case_tests.
  - symmetry. apply Q.min_r. lra.
  - symmetry. apply Q.min_l. assumption.
Qed.

#[local] Instance py_max_compat : Proper (Qeq ==> Qeq ==> Qeq) py_max.
Proof. intros a a' Ha b b' Hb. rewrite !py_max_Qmax, Ha, Hb. reflexivity. Qed.

#[local] Instance py_min_compat : Proper (Qeq ==> Qeq ==> Qeq) py_min.
Proof. intros a a' Ha b b' Hb. rewrite !py_min_Qmin, Ha, Hb. reflexivity. Qed.

Lemma clamp_bounds (lo hi x : Q) : lo <= hi -> lo <= py_max lo (py_min hi x) <= hi.
Proof. intro H. unfold py_max, py_min. case_tests; lra. Qed.

(** C7: [_calculate_comfort_index] is the clamp to [0,100] of the mean of the
    three sub-scores minus the three capped penalties, with the mathematical
    [max], [min] and [| |]; its value lies in [0,100]. *)
Theorem comfort_index_formula (wd : weather_data) :
  calculate_comfort_index wd == comfort_index_spec wd /\
  0 <= calculate_comfort_index wd <= 100.
Proof.
  split.
  - unfold calculate_comfort_index, comfort_index_spec. cbv zeta.
    rewrite !py_max_Qmax, !py_min_Qmin. reflexivity.
  - unfold calculate_comfort_index. apply clamp_bounds. lra.
Qed.

(** *** C4: the ranking *)

Section Ranking.

(** "[a] may precede [b]" in a list sorted by non-increasing score. *)
Let score_ge (a b : suitability) : Prop := su_score b <= su_score a.

Lemma In_insert_desc (x y : suitability) (l : list suitability) :
  In y (insert_desc x l) <-> y = x \/ In y l.
Proof.
  induction l as [|z l IH]; simpl.
  - intuition congruence.
  - destruct (Qle_bool (su_score z) (su_score x)); simpl; [intuition congruence|].
    rewrite IH. intuition congruence.
Qed.

Lemma In_sort_desc (y : suitability) (l : list suitability) :
  In y (sort_desc l) <-> In y l.
Proof.
  induction l as [|x l IH]; simpl; [tauto|].
  rewrite In_insert_desc, IH. intuition congruence.
Qed.

Lemma HdRel_insert_desc (x y : suitability) (l : list suitability) :
  score_ge y x -> HdRel score_ge y l -> HdRel score_ge y (insert_desc x l).
Proof.
  intros Hyx Hl. destruct l as [|z l]; simpl.
  - constructor. assumption.
  - inversion Hl; subst.
    destruct (Qle_bool (su_score z) (su_score x)); constructor; assumption.
Qed.

Lemma Sorted_insert_desc (x : suitability) (l : list suitability) :
  Sorted score_ge l -> Sorted score_ge (insert_desc x l).
Proof.
  induction l as [|z l IH]; simpl; intro Hs.
  - repeat constructor.
  - inversion Hs; subst.
    destruct (Qle_bool (su_score z) (su_score x)) eqn:E.
    + apply Qle_bool_iff in E. constructor; [assumption | constructor; exact E].
    + apply Qle_bool_false in E. constructor; [apply IH; assumption|].
      apply HdRel_insert_desc; [unfold score_ge; lra | assumption].
Qed.

Lemma Sorted_sort_desc (l : list suitability) : Sorted score_ge (sort_desc l).
Proof.
  induction l as [|x l IH]; simpl; [constructor|].
  apply Sorted_insert_desc. assumption.
Qed.

Lemma Sorted_firstn (n : nat) (l : list suitability) :
  Sorted score_ge l -> Sorted score_ge (firstn n l).
Proof.
  revert l; induction n as [|n IH]; intros l Hs; simpl; [constructor|].
  destruct l as [|x l]; [constructor|].
  inversion Hs; subst. constructor; [apply IH; assumption|].
  destruct n as [|n]; simpl; [constructor|].
  destruct l as [|y l]; [constructor|].
  inversion H2; subst. constructor. assumption.
Qed.

(** The elements of one score class. *)
Let same_score (s : Q) (x : suitability) : bool := Qeq_bool (su_score x) s.

(** Stability: inserting [x] leaves the elements of its score class in front
    of it unchanged. *)
Lemma filter_insert_desc (s : Q) (x : suitability) (l : list suitability) :
  filter (same_score s) (insert_desc x l)
  = if same_score s x then x :: filter (same_score s) l else filter (same_score s) l.
Proof.
  induction l as [|y l IH]; simpl.
  - destruct (same_score s x); reflexivity.
  - destruct (Qle_bool (su_score y) (su_score x)) eqn:E; simpl.
    + destruct (same_score s x); reflexivity.
    + rewrite IH. unfold same_score in *.
      destruct (Qeq_bool (su_score y) s) eqn:Ey,
               (Qeq_bool (su_score x) s) eqn:Ex; try reflexivity.
      apply Qeq_bool_iff in Ey, Ex. apply Qle_bool_false in E. lra.
Qed.

Lemma filter_sort_desc (s : Q) (l : list suitability) :
  filter (same_score s) (sort_desc l) = filter (same_score s) l.
Proof.
  induction l as [|x l IH]; simpl; [reflexivity|].
  rewrite filter_insert_desc, IH. reflexivity.
Qed.

Lemma filter_firstn_prefix (f : suitability -> bool) (n : nat) (l : list suitability) :
  exists suf, filter f l = filter f (firstn n l) ++ suf.
Proof.
  exists (filter f (skipn n l)). rewrite <- filter_app, firstn_skipn. reflexivity.
Qed.

Lemma In_candidates (events : list event) (w : weather) (cats : option (list string))
  (x : suitability) :
  In x (candidates events w cats) ->
  exists e, In e events /\ In e (filter_events events cats) /\ score_event w e = [x] /\
            min_comfort_score e <= su_score x /\ su_score x = score_of e w.
Proof.
  unfold candidates. rewrite in_flat_map. intros [e [He Hx]].
  exists e. split.
  - unfold filter_events in He.
    destruct cats as [[|c cs]|]; try assumption. apply filter_In in He. tauto.
  - split; [assumption|]. unfold score_event, score_of in *.
    destruct (calculate_score e w) as [[s rs] recs]. simpl.
    destruct (Qle_bool (min_comfort_score e) s) eqn:E; [|destruct Hx].
    destruct Hx as [Hx|[]]. subst x. apply Qle_bool_iff in E. simpl. auto.
Qed.

(** C4: every result comes from an entry whose score reaches its
    [min_comfort_score]; the result is sorted by non-increasing score; in
    every score class it keeps a prefix of the candidates in catalog order;
    it has at most 10 elements. *)
Theorem ranking_spec (events : list event) (w : weather) (forecast_type : string)
  (cats : option (list string)) :
  let r := get_event_recommendations events w forecast_type cats in
  (forall x, In x r ->
     exists e, In e events /\ In e (filter_events events cats) /\ score_event w e = [x] /\
               min_comfort_score e <= su_score x /\ su_score x = score_of e w) /\
  Sorted (fun a b => su_score b <= su_score a) r /\
  (forall s, exists suf,
     filter (fun x => Qeq_bool (su_score x) s) (candidates events w cats)
     = filter (fun x => Qeq_bool (su_score x) s) r ++ suf) /\
  (List.length r <= 10)%nat.
Proof.
  unfold get_event_recommendations. split; [|split; [|split]].
  - intros x Hx. apply In_candidates. apply In_sort_desc.
    rewrite <- (firstn_skipn 10 (sort_desc _)). apply in_or_app. left. exact Hx.
  - apply Sorted_firstn, Sorted_sort_desc.
  - intro s. fold (same_score s).
    rewrite <- (filter_sort_desc s (candidates events w cats)).
    apply filter_firstn_prefix.
  - apply firstn_le_length.
Qed.

End Ranking.

(** *** C5: precipitation above a [max_precipitation] threshold *)

Lemma penalise_score (st : score_state) (p : Q) (r : reason) (c : option string) :
  ss_score (penalise st p r c) = ss_score st - p.
Proof. reflexivity. Qed.

Lemma check_req_score (st : score_state) (req : option Q) (violated : Q -> bool)
  (penalty : Q -> Q) (r : Q -> reason) (c : string) :
  ss_score (check_req st req violated penalty r c) == ss_score st - req_penalty req violated penalty.
Proof. destruct req as [th|]; simpl; [destruct (violated th)|]; simpl; ring. Qed.

Lemma requirement_penalties_shift (reqs : requirements) (w : weather) (st : score_state) :
  ss_score (requirement_penalties reqs w st)
  == ss_score st + ss_score (requirement_penalties reqs w zero_state).
Proof.
  unfold requirement_penalties. cbv zeta.
  destruct (min_visibility reqs) as [v|]; [destruct (qlt _ v)|];
    rewrite ?penalise_score, !check_req_score; simpl; ring.
Qed.

Lemma category_adjustment_shift (c : string) (w : weather) (st : score_state) :
  ss_score (category_adjustment c w st)
  == ss_score st + ss_score (category_adjustment c w zero_state).
Proof.
  unfold category_adjustment. cbv zeta.
  repeat match goal with |- context [if ?b then _ else _] => destruct b end;
    rewrite ?penalise_score; simpl; ring.
Qed.

Lemma comfort_adjustments_shift (w : weather) (st : score_state) :
  ss_score (comfort_adjustments w st)
  == ss_score st + ss_score (comfort_adjustments w zero_state).
Proof.
  unfold comfort_adjustments. cbv zeta.
  repeat match goal with |- context [if ?b then _ else _] => destruct b end;
    rewrite ?penalise_score; simpl; ring.
Qed.

(** The raw score, before clamping, is [100] plus the three contributions. *)
Lemma raw_score_sum (e : event) (w : weather) :
  ss_score (raw_state e w)
  == 100 + ss_score (requirement_penalties (weather_requirements e) w zero_state)
         + ss_score (category_adjustment (ev_category e) w zero_state)
         + ss_score (comfort_adjustments w zero_state).
Proof.
  unfold raw_state.
  rewrite comfort_adjustments_shift, category_adjustment_shift,
    requirement_penalties_shift. simpl. ring.
Qed.

Lemma requirement_penalties_precipitation (reqs : requirements) (w : weather) (th p1 p2 : Q) :
  max_precipitation reqs = Some th -> th < p1 -> th < p2 ->
  ss_score (requirement_penalties reqs (with_precipitation w p2) zero_state)
  == ss_score (requirement_penalties reqs (with_precipitation w p1) zero_state) - (p2 - p1) * 8.
Proof.
  intros Hreq H1 H2. apply qlt_true in H1, H2.
  unfold requirement_penalties, with_precipitation; cbv zeta.
  cbn [temperature humidity wind_speed precipitation visibility uv_index cloud_cover
       condition get].
  destruct (min_visibility reqs) as [v|]; [destruct (qlt _ v)|];
    rewrite ?penalise_score, !check_req_score, Hreq; cbn [req_penalty];
    rewrite H1, H2; ring.
Qed.

Lemma raw_score_precipitation (e : event) (w : weather) (th p1 p2 : Q) :
  max_precipitation (weather_requirements e) = Some th -> th < p1 -> th < p2 ->
  ss_score (raw_state e (with_precipitation w p2))
  == ss_score (raw_state e (with_precipitation w p1)) - (p2 - p1) * 8.
Proof.
  intros Hreq H1 H2. rewrite !raw_score_sum.
  rewrite (requirement_penalties_precipitation _ _ th p1 p2 Hreq H1 H2).
  assert (Hc : category_adjustment (ev_category e) (with_precipitation w p2) zero_state
               = category_adjustment (ev_category e) (with_precipitation w p1) zero_state)
    by (destruct w; reflexivity).
  assert (Hk : comfort_adjustments (with_precipitation w p2) zero_state
               = comfort_adjustments (with_precipitation w p1) zero_state)
    by (destruct w; reflexivity).
  rewrite Hc, Hk. ring.
Qed.

(** Clamping to [0,100] is monotone. *)
Lemma clamp_mono (r1 r2 : Q) :
  r2 <= r1 -> py_max 0 (py_min 100 r2) <= py_max 0 (py_min 100 r1).
Proof. intro H. unfold py_max, py_min. case_qlt r1 100; case_qlt r2 100; case_tests; lra. Qed.

(** C5 (counterexample): for the catalog's "museum" entry
    ([max_precipitation] 50, category rain_compatible) on a mapping with only
    the precipitation set, 50.5 mm and 51 mm both exceed the threshold, but
    the raw scores 106 and 102 are both clamped to 100: the wetter reading is
    not strictly lower, and neither score is 0. *)
Lemma C5_upper_clamp_counterexample :
  max_precipitation (weather_requirements museum_event) = Some 50 /\
  50 < (101 # 2) /\ (101 # 2) < 51 /\
  score_of museum_event (with_precipitation empty_weather (101 # 2)) == 100 /\
  score_of museum_event (with_precipitation empty_weather 51) == 100 /\
  ~ (score_of museum_event (with_precipitation empty_weather 51)
       < score_of museum_event (with_precipitation empty_weather (101 # 2)) \/
     (score_of museum_event (with_precipitation empty_weather (101 # 2)) == 0 /\
      score_of museum_event (with_precipitation empty_weather 51) == 0)).
Proof.
  vm_compute. repeat split; try reflexivity.
  intros [H|[H _]]; discriminate H.
Qed.

(** C5 (amended): above a [max_precipitation] threshold, a reading that
    differs only by more precipitation never gets a higher score. *)
Theorem precipitation_score_monotone (e : event) (w : weather) (th p1 p2 : Q) :
  max_precipitation (weather_requirements e) = Some th -> th < p1 -> p1 <= p2 ->
  score_of e (with_precipitation w p2) <= score_of e (with_precipitation w p1).
Proof.
  intros Hreq H1 H12.
  assert (Hle : ss_score (raw_state e (with_precipitation w p2))
                <= ss_score (raw_state e (with_precipitation w p1))).
  { rewrite (raw_score_precipitation e w th p1 p2 Hreq H1 ltac:(lra)). lra. }
  unfold score_of, calculate_score. cbv zeta. cbn [fst]. apply clamp_mono, Hle.
Qed.

Lemma precipitation_score_monotone_witness :
  max_precipitation (weather_requirements example2_event) = Some 2 /\ 2 < 3 /\ 3 <= 10 /\
  score_of example2_event (with_precipitation example2_weather 10)
    <= score_of example2_event (with_precipitation example2_weather 3).
Proof.
  assert (H1 : 2 < 3) by (vm_compute; reflexivity).
  assert (H2 : 3 <= 10) by (vm_compute; discriminate).
  split; [reflexivity|]. split; [exact H1|]. split; [exact H2|].
  exact (precipitation_score_monotone example2_event example2_weather 2 3 10 eq_refl H1 H2).
Defined.

(** ** Further properties of the code *)

(** *** The matcher's result *)

Lemma penalise_recs_le (st : score_state) (p : Q) (r : reason) (c : option string) :
  recs_le_reasons st -> recs_le_reasons (penalise st p r c).
Proof.
  unfold recs_le_reasons, penalise; simpl. rewrite !length_app.
  destruct c; simpl; [rewrite length_app; simpl|]; lia.
Qed.

Lemma check_req_recs_le (st : score_state) (req : option Q) (violated : Q -> bool)
  (penalty : Q -> Q) (r : Q -> reason) (c : string) :
  recs_le_reasons st -> recs_le_reasons (check_req st req violated penalty r c).
Proof.
  intro H. unfold check_req. destruct req as [th|]; [|exact H].
  destruct (violated th); [apply penalise_recs_le|]; exact H.
Qed.

Ltac recs_le_step :=
  repeat match goal with
  | |- recs_le_reasons (if ?b then _ else _) => destruct b
  | |- recs_le_reasons (match ?o with Some _ => _ | None => _ end) => destruct o
  | |- recs_le_reasons (penalise _ _ _ _) => apply penalise_recs_le
  | |- recs_le_reasons (check_req _ _ _ _ _ _) => apply check_req_recs_le
  end.

Lemma requirement_penalties_recs_le (reqs : requirements) (w : weather) (st : score_state) :
  recs_le_reasons st -> recs_le_reasons (requirement_penalties reqs w st).
Proof.
  intro H. unfold requirement_penalties. cbv zeta. recs_le_step; assumption.
Qed.

Lemma category_adjustment_recs_le (c : string) (w : weather) (st : score_state) :
  recs_le_reasons st -> recs_le_reasons (category_adjustment c w st).
Proof.
  intro H. unfold category_adjustment. cbv zeta. recs_le_step; assumption.
Qed.

Lemma comfort_adjustments_recs_le (w : weather) (st : score_state) :
  recs_le_reasons st -> recs_le_reasons (comfort_adjustments w st).
Proof.
  intro H. unfold comfort_adjustments. cbv zeta. recs_le_step; assumption.
Qed.

Lemma raw_state_recs_le (e : event) (w : weather) : recs_le_reasons (raw_state e w).
Proof.
  apply comfort_adjustments_recs_le, category_adjustment_recs_le,
        requirement_penalties_recs_le.
  unfold recs_le_reasons. simpl. lia.
Qed.

(** X1: [_calculate_score] returns a score in [0,100]; its reasons end with
    the summary band of that score, and there are strictly more reasons than
    recommendations. *)
Theorem calculate_score_shape (e : event) (w : weather) :
  let '(score, reasons, recs) := calculate_score e w in
  0 <= score <= 100 /\
  (exists rs, reasons = rs ++ [summary_reason score]) /\
  (List.length recs < List.length reasons)%nat.
Proof.
  pose proof (raw_state_recs_le e w) as H. unfold recs_le_reasons in H.
  unfold calculate_score. cbv zeta. split; [|split].
  - apply clamp_bounds. lra.
  - eexists. reflexivity.
  - rewrite length_app. simpl. lia.
Qed.

(** *** [calculate_event_score] *)

Lemma find_id_none (events : list event) (event_id : string) :
  find (fun e => String.eqb (ev_id e) event_id) events = None <->
  Forall (fun e => ev_id e <> event_id) events.
Proof.
  induction events as [|e es IH]; simpl.
  - split; [constructor | reflexivity].
  - destruct (String.eqb_spec (ev_id e) event_id) as [Heq|Hne].
    + split; [discriminate|]. intro H. inversion H; subst. contradiction.
    + rewrite IH. split; [intro H; constructor; assumption|].
      intro H. inversion H; assumption.
Qed.

Lemma find_id_first (pre post : list event) (e : event) (event_id : string) :
  Forall (fun e' => ev_id e' <> event_id) pre -> ev_id e = event_id ->
  find (fun e' => String.eqb (ev_id e') event_id) (pre ++ e :: post) = Some e.
Proof.
  intros Hpre He. induction Hpre as [|e' pre Hne Hpre IH]; simpl.
  - rewrite He, String.eqb_refl. reflexivity.
  - destruct (String.eqb_spec (ev_id e') event_id); [contradiction | exact IH].
Qed.

(** X2: [calculate_event_score] raises its [ValueError] exactly when no
    event has the requested id; otherwise, on a dict, it scores the first
    event with that id and reports it under the requested id. *)
Theorem calculate_event_score_lookup (events : list event) (event_id : string) :
  (forall a, calculate_event_score events event_id a = inl (EventNotFound event_id) <->
             Forall (fun e => ev_id e <> event_id) events) /\
  (forall pre e post w,
     events = pre ++ e :: post ->
     Forall (fun e' => ev_id e' <> event_id) pre -> ev_id e = event_id ->
     calculate_event_score events event_id (WDict w)
     = inr (let '(score, reasons, recs) := calculate_score e w in
            mkSuit event_id (ev_name e) score reasons recs)).
Proof.
  split.
  - intro a. rewrite <- find_id_none. unfold calculate_event_score.
    destruct (find _ events) as [e|]; [|tauto].
    split; [|discriminate].
    destruct a as [w|wd]; simpl.
    + destruct (calculate_score e w) as [[s rs] recs]. discriminate.
    + discriminate.
  - intros pre e post w -> Hpre He. unfold calculate_event_score.
    rewrite (find_id_first pre post e event_id Hpre He). simpl.
    destruct (calculate_score e w) as [[s rs] recs]. reflexivity.
Qed.

Lemma find_id_unique (events : list event) (e : event) :
  NoDup (map ev_id events) -> In e events ->
  find (fun e' => String.eqb (ev_id e') (ev_id e)) events = Some e.
Proof.
  induction events as [|e' es IH]; simpl; intros Hnd Hin; [destruct Hin|].
  inversion Hnd as [|x l Hnotin Hnd']; subst.
  destruct Hin as [<-|Hin].
  - rewrite String.eqb_refl. reflexivity.
  - destruct (String.eqb_spec (ev_id e') (ev_id e)) as [Heq|]; [|apply IH; assumption].
    exfalso. apply Hnotin. rewrite Heq. apply in_map. exact Hin.
Qed.

(** X3: when the catalog ids are unique, [calculate_event_score] on the id
    of any entry returned by [get_event_recommendations] (same weather dict)
    gives back exactly that entry. *)
Theorem event_score_agrees_with_ranking (events : list event) (w : weather)
  (forecast_type : string) (cats : option (list string)) (x : suitability) :
  NoDup (map ev_id events) ->
  In x (get_event_recommendations events w forecast_type cats) ->
  calculate_event_score events (su_event_id x) (WDict w) = inr x.
Proof.
  intros Hnd Hx. unfold get_event_recommendations in Hx.
  assert (Hx' : In x (sort_desc (candidates events w cats))).
  { rewrite <- (firstn_skipn 10 (sort_desc (candidates events w cats))).
    apply in_or_app. left. exact Hx. }
  apply In_sort_desc, In_candidates in Hx'. clear Hx. rename Hx' into Hx.
  destruct Hx as [e [He [_ [Hsc _]]]].
  unfold score_event in Hsc.
  destruct (calculate_score e w) as [[s rs] recs] eqn:Ec.
  destruct (Qle_bool (min_comfort_score e) s); [|discriminate].
  injection Hsc as <-. cbn [su_event_id].
  unfold calculate_event_score. rewrite (find_id_unique events e Hnd He).
  unfold calculate_score_arg. rewrite Ec. reflexivity.
Qed.

Lemma event_score_agrees_with_ranking_witness :
  NoDup (map ev_id sample_events) /\
  In ranked_fourth (get_event_recommendations sample_events cool_weather "short_term" None) /\
  su_event_id ranked_fourth = "concert" /\
  calculate_event_score sample_events (su_event_id ranked_fourth) (WDict cool_weather)
  = inr ranked_fourth.
Proof.
  assert (Hnd : NoDup (map ev_id sample_events))
    by (repeat constructor; simpl; intuition discriminate).
  assert (Hin : In ranked_fourth
                  (get_event_recommendations sample_events cool_weather "short_term" None))
    by (unfold ranked_fourth; apply nth_In; vm_compute; lia).
  split; [exact Hnd|]. split; [exact Hin|]. split; [vm_compute; reflexivity|].
  exact (event_score_agrees_with_ranking sample_events cool_weather "short_term" None
           ranked_fourth Hnd Hin).
Defined.

(** *** What the routes hand to the scorers *)

(** X4: on the short-term path the routes pass the [WeatherData] object:
    every event's scoring raises and is skipped, so the recommendations are
    always empty, and [calculate_event_score] always raises; on a dict the
    scorer is [get_event_recommendations]. *)
Theorem weather_model_argument (events : list event) (wd : weather_data) (w : weather)
  (forecast_type : string) (cats : option (list string)) (event_id : string) :
  get_event_recommendations_arg events (WModel wd) forecast_type cats = [] /\
  (exists err, calculate_event_score events event_id (WModel wd) = inl err) /\
  get_event_recommendations_arg events (WDict w) forecast_type cats
  = get_event_recommendations events w forecast_type cats.
Proof.
  split; [|split].
  - unfold get_event_recommendations_arg.
    induction (filter_events events cats) as [|e es IH]; [reflexivity|].
    simpl. exact IH.
  - unfold calculate_event_score.
    destruct (find _ events); simpl; eexists; reflexivity.
  - unfold get_event_recommendations_arg, get_event_recommendations, candidates.
    rewrite (flat_map_ext (score_event_arg (WDict w)) (score_event w)); [reflexivity|].
    intro e. unfold score_event_arg, score_event, calculate_score_arg.
    destruct (calculate_score e w) as [[s rs] recs]. reflexivity.
Qed.

(** *** [_map_weather_condition] *)

(** X5: [_map_weather_condition] only returns one of the six conditions
    sunny, cloudy, rainy, snowy, stormy, foggy (never windy); it returns
    sunny exactly for "Clear", and cloudy for every unmapped condition. *)
Theorem map_weather_condition_range (c : string) :
  In (map_weather_condition c) ["sunny"; "cloudy"; "rainy"; "snowy"; "stormy"; "foggy"] /\
  map_weather_condition c <> "windy" /\
  (map_weather_condition c = "sunny" <-> c = "Clear") /\
  (~ In c (map fst condition_map) -> map_weather_condition c = "cloudy").
Proof.
  unfold map_weather_condition, condition_map. cbn [assoc_get map fst].
  repeat match goal with
  | |- context [String.eqb c ?k] => destruct (String.eqb_spec c k)
  end; subst; simpl;
  repeat split; try tauto; try discriminate; try (intro; discriminate);
  try (intro H; exfalso; apply H; tauto); intro H; congruence.
Qed.

(** *** The clothing list *)

Lemma insert_prio_perm (x : clothing_rec) (l : list clothing_rec) :
  Permutation (insert_prio x l) (x :: l).
Proof.
  induction l as [|y l IH]; simpl; [reflexivity|].
  destruct (Z.leb (cr_priority y) (cr_priority x)); [reflexivity|].
  rewrite IH. apply perm_swap.
Qed.

Lemma sort_prio_perm (l : list clothing_rec) : Permutation (sort_prio l) l.
Proof.
  induction l as [|x l IH]; simpl; [reflexivity|].
  rewrite insert_prio_perm, IH. reflexivity.
Qed.

Lemma Sorted_insert_prio (x : clothing_rec) (l : list clothing_rec) :
  Sorted (fun a b => (cr_priority b <= cr_priority a)%Z) l ->
  Sorted (fun a b => (cr_priority b <= cr_priority a)%Z) (insert_prio x l).
Proof.
  induction l as [|y l IH]; simpl; intro Hs; [repeat constructor|].
  inversion Hs as [|y' l' Hl Hhd]; subst.
  destruct (Z.leb_spec (cr_priority y) (cr_priority x)).
  - constructor; [exact Hs | constructor; assumption].
  - constructor; [apply IH; assumption|].
    destruct l as [|z l]; simpl; [constructor; lia|].
    inversion Hhd; subst.
    destruct (Z.leb (cr_priority z) (cr_priority x)); constructor; lia.
Qed.

Lemma Sorted_sort_prio (l : list clothing_rec) :
  Sorted (fun a b => (cr_priority b <= cr_priority a)%Z) (sort_prio l).
Proof.
  induction l as [|x l IH]; simpl; [constructor|]. apply Sorted_insert_prio, IH.
Qed.

Lemma filter_insert_prio (p : Z) (x : clothing_rec) (l : list clothing_rec) :
  filter (fun r => Z.eqb (cr_priority r) p) (insert_prio x l)
  = if Z.eqb (cr_priority x) p then x :: filter (fun r => Z.eqb (cr_priority r) p) l
    else filter (fun r => Z.eqb (cr_priority r) p) l.
Proof.
  induction l as [|y l IH]; simpl.
  - destruct (Z.eqb (cr_priority x) p); reflexivity.
  - destruct (Z.leb_spec (cr_priority y) (cr_priority x)); simpl.
    + destruct (Z.eqb (cr_priority x) p); reflexivity.
    + rewrite IH.
      destruct (Z.eqb_spec (cr_priority y) p), (Z.eqb_spec (cr_priority x) p);
        try reflexivity; lia.
Qed.

Lemma filter_sort_prio (p : Z) (l : list clothing_rec) :
  filter (fun r => Z.eqb (cr_priority r) p) (sort_prio l)
  = filter (fun r => Z.eqb (cr_priority r) p) l.
Proof.
  induction l as [|x l IH]; simpl; [reflexivity|].
  rewrite filter_insert_prio, IH. reflexivity.
Qed.

Lemma get_recommendations_recs (w : weather) (forecast_type location : string) :
  of_recommendations (get_recommendations w forecast_type location)
  = sort_prio (unsorted_clothing w).
Proof.
  unfold get_recommendations, unsorted_clothing. cbv zeta.
  destruct (temperature_recs _), (precipitation_recs _), (wind_recs _), (uv_recs _).
  reflexivity.
Qed.

Lemma sections_ok (w : weather) :
  section_ok 4 (fst (temperature_recs (get (temperature w) default_temperature))) = true /\
  section_ok 3 (fst (precipitation_recs (get (precipitation w) default_precipitation))) = true /\
  section_ok 2 (fst (wind_recs (get (wind_speed w) default_wind_speed))) = true /\
  section_ok 3 (fst (uv_recs (get (uv_index w) default_uv_index))) = true.
Proof.
  unfold temperature_recs, precipitation_recs, wind_recs, uv_recs.
  repeat split; case_tests; reflexivity.
Qed.

Lemma section_ok_spec (n : nat) (l : list clothing_rec) :
  section_ok n l = true ->
  (forall r, In r l -> (2 <= cr_priority r <= 5)%Z) /\ (List.length l <= n)%nat.
Proof.
  unfold section_ok. rewrite andb_true_iff, forallb_forall, Nat.leb_le.
  intros [H Hn]. split; [|exact Hn].
  intros r Hr. specialize (H r Hr). rewrite andb_true_iff, !Z.leb_le in H. exact H.
Qed.

(** X6: the clothing list of [get_recommendations] is the list of the four
    rule sections reordered by a stable sort on non-increasing priority:
    a permutation of it, sorted, and with the rule order kept among equal
    priorities; every priority lies in [2,5] and there are at most 12
    items. *)
Theorem clothing_recommendations_order (w : weather) (forecast_type location : string) :
  let recs := of_recommendations (get_recommendations w forecast_type location) in
  Permutation recs (unsorted_clothing w) /\
  Sorted (fun a b => (cr_priority b <= cr_priority a)%Z) recs /\
  (forall p, filter (fun r => Z.eqb (cr_priority r) p) recs
             = filter (fun r => Z.eqb (cr_priority r) p) (unsorted_clothing w)) /\
  (forall r, In r recs -> (2 <= cr_priority r <= 5)%Z) /\
  (List.length recs <= 12)%nat.
Proof.
  cbv zeta. rewrite get_recommendations_recs.
  split; [apply sort_prio_perm|]. split; [apply Sorted_sort_prio|].
  split; [intro p; apply filter_sort_prio|].
  destruct (sections_ok w) as [H1 [H2 [H3 H4]]].
  apply section_ok_spec in H1, H2, H3, H4.
  split.
  - intros r Hr. apply (Permutation_in _ (sort_prio_perm _)) in Hr.
    unfold unsorted_clothing in Hr. rewrite !in_app_iff in Hr.
    destruct Hr as [Hr|[Hr|[Hr|Hr]]];
      [apply H1 | apply H2 | apply H3 | apply H4]; exact Hr.
  - rewrite (Permutation_length (sort_prio_perm _)).
    unfold unsorted_clothing. rewrite !length_app. lia.
Qed.

Lemma existsb_insert_prio (f : clothing_rec -> bool) (x : clothing_rec) (l : list clothing_rec) :
  existsb f (insert_prio x l) = f x || existsb f l.
Proof.
  induction l as [|y l IH]; simpl; [reflexivity|].
  destruct (Z.leb (cr_priority y) (cr_priority x)); simpl; [reflexivity|].
  rewrite IH. destruct (f x), (f y); reflexivity.
Qed.

Lemma existsb_sort_prio (f : clothing_rec -> bool) (l : list clothing_rec) :
  existsb f (sort_prio l) = existsb f l.
Proof.
  induction l as [|x l IH]; simpl; [reflexivity|].
  rewrite existsb_insert_prio, IH. reflexivity.
Qed.

Lemma temperature_items (t : Q) :
  items_of (fst (temperature_recs t))
  = [false; qlt 25 t; qlt t 20; qlt 25 t; qlt t 10; qlt 30 t; qlt t 10; qlt t 0].
Proof.
  unfold temperature_recs. case_tests; simpl; try reflexivity; exfalso; lra.
Qed.

Lemma precipitation_items (p : Q) :
  items_of (fst (precipitation_recs p))
  = [qlt 1 p; false; qlt 1 p; false; qlt 5 p; false; false; false].
Proof.
  unfold precipitation_recs. case_tests; simpl; try reflexivity; exfalso; lra.
Qed.

Lemma wind_items (v : Q) :
  items_of (fst (wind_recs v)) = [false; false; qlt 15 v; false; false; qlt 20 v; false; false].
Proof.
  unfold wind_recs. case_tests; simpl; try reflexivity; exfalso; lra.
Qed.

Lemma uv_items (uv : Q) :
  items_of (fst (uv_recs uv)) = [false; qlt 5 uv; false; qlt 5 uv; false; qlt 7 uv; false; false].
Proof.
  unfold uv_recs. case_tests; simpl; try reflexivity; exfalso; lra.
Qed.

Lemma items_of_app (l1 l2 : list clothing_rec) :
  items_of (l1 ++ l2) = map (fun '(a, b) => a || b) (combine (items_of l1) (items_of l2)).
Proof. unfold items_of. simpl. rewrite !existsb_app. reflexivity. Qed.

(** X7: an item is in the clothing list exactly when one of its rules
    fires, read with the [dict.get] defaults: umbrella when precipitation
    > 1; sunglasses and sunscreen when temperature > 25 or UV > 5; jacket
    when temperature < 20, precipitation > 1 or wind > 15; boots when
    temperature < 10 or precipitation > 5; hat when temperature > 30, wind
    > 20 or UV > 7; gloves when temperature < 10; scarf when temperature
    < 0. *)
Theorem clothing_items_present (w : weather) (forecast_type location : string) :
  let recs := of_recommendations (get_recommendations w forecast_type location) in
  let temp := get (temperature w) default_temperature in
  let precip := get (precipitation w) default_precipitation in
  let wind := get (wind_speed w) default_wind_speed in
  let uv := get (uv_index w) default_uv_index in
  existsb (has_item UMBRELLA) recs = qlt 1 precip /\
  existsb (has_item SUNGLASSES) recs = qlt 25 temp || qlt 5 uv /\
  existsb (has_item JACKET) recs = qlt temp 20 || qlt 1 precip || qlt 15 wind /\
  existsb (has_item SUNSCREEN) recs = qlt 25 temp || qlt 5 uv /\
  existsb (has_item BOOTS) recs = qlt temp 10 || qlt 5 precip /\
  existsb (has_item HAT) recs = qlt 30 temp || qlt 20 wind || qlt 7 uv /\
  existsb (has_item GLOVES) recs = qlt temp 10 /\
  existsb (has_item SCARF) recs = qlt temp 0.
Proof.
  cbv zeta. rewrite get_recommendations_recs, !existsb_sort_prio.
  unfold unsorted_clothing. rewrite !existsb_app.
  pose proof (temperature_items (get (temperature w) default_temperature)) as T.
  pose proof (precipitation_items (get (precipitation w) default_precipitation)) as P.
  pose proof (wind_items (get (wind_speed w) default_wind_speed)) as W.
  pose proof (uv_items (get (uv_index w) default_uv_index)) as U.
  unfold items_of in T, P, W, U. cbn [map] in T, P, W, U.
  injection T as T1 T2 T3 T4 T5 T6 T7 T8. injection P as P1 P2 P3 P4 P5 P6 P7 P8.
  injection W as W1 W2 W3 W4 W5 W6 W7 W8. injection U as U1 U2 U3 U4 U5 U6 U7 U8.
  rewrite T1, T2, T3, T4, T5, T6, T7, T8, P1, P2, P3, P4, P5, P6, P7, P8,
          W1, W2, W3, W4, W5, W6, W7, W8, U1, U2, U3, U4, U5, U6, U7, U8.
  repeat split; cbn [orb]; rewrite ?orb_false_r, ?orb_assoc; reflexivity.
Qed.

(** *** The comfort index *)

Lemma py_min_mono (c x y : Q) : x <= y -> py_min c x <= py_min c y.
Proof. intro H. unfold py_min. case_tests; lra. Qed.

Lemma py_max_mono (c x y : Q) : x <= y -> py_max c x <= py_max c y.
Proof. intro H. unfold py_max. case_tests; lra. Qed.

(** X8: with the other fields fixed, [_calculate_comfort_index] never
    increases when precipitation grows and never decreases when visibility
    grows. *)
Theorem comfort_index_monotone (wd : weather_data) (p1 p2 v1 v2 : Q) :
  p1 <= p2 -> v1 <= v2 ->
  calculate_comfort_index (wd_with_precipitation wd p2)
    <= calculate_comfort_index (wd_with_precipitation wd p1) /\
  calculate_comfort_index (wd_with_visibility wd v1)
    <= calculate_comfort_index (wd_with_visibility wd v2).
Proof.
  intros Hp Hv. unfold calculate_comfort_index, wd_with_precipitation, wd_with_visibility.
  cbn [wd_temperature wd_humidity wd_wind_speed wd_precipitation wd_uv_index wd_visibility].
  cbv zeta. split; apply py_max_mono, py_min_mono.
  - assert (py_min 50 (p1 * 10) <= py_min 50 (p2 * 10)) by (apply py_min_mono; lra). lra.
  - assert (H1 : py_max 0 (10 - v2) <= py_max 0 (10 - v1)) by (apply py_max_mono; lra).
    assert (py_min 20 (py_max 0 (10 - v2) * 2) <= py_min 20 (py_max 0 (10 - v1) * 2))
      by (apply py_min_mono; lra).
    lra.
Qed.

Lemma comfort_index_monotone_witness :
  0 <= 3 /\ 5 <= 10 /\
  calculate_comfort_index (wd_with_precipitation mild_weather_data 3)
    <= calculate_comfort_index (wd_with_precipitation mild_weather_data 0) /\
  calculate_comfort_index (wd_with_visibility mild_weather_data 5)
    <= calculate_comfort_index (wd_with_visibility mild_weather_data 10).
Proof.
  assert (H1 : 0 <= 3) by (vm_compute; discriminate).
  assert (H2 : 5 <= 10) by (vm_compute; discriminate).
  split; [exact H1|]. split; [exact H2|].
  exact (comfort_index_monotone mild_weather_data 0 3 5 10 H1 H2).
Defined.

(** *** Python's [round] keeps a range *)

Lemma round_half_even_between (a b : Z) (y : Q) :
  inject_Z a <= y -> y <= inject_Z b -> (a <= round_half_even y <= b)%Z.
Proof.
  intros Ha Hb. unfold round_half_even.
  pose proof (Qfloor_le y) as Hf1. pose proof (Qlt_floor y) as Hf2.
  rewrite inject_Z_plus in Hf2.
  assert (Hfa : (a <= Qfloor y)%Z).
  { rewrite <- (Qfloor_Z a). apply Qfloor_resp_le. exact Ha. }
  assert (Hfb : (Qfloor y <= b)%Z).
  { rewrite <- (Qfloor_Z b). apply Qfloor_resp_le. exact Hb. }
  set (f := Qfloor y) in *.
  assert (Hlt : (1 # 2) <= y - inject_Z f -> (f < b)%Z).
  { intro H. destruct (Z.eq_dec f b) as [->|]; [exfalso; lra | lia]. }
  case_qlt (1 # 2) (y - inject_Z f).
  - specialize (Hlt ltac:(lra)). lia.
  - destruct (Qeq_bool (y - inject_Z f) (1 # 2)) eqn:Eq; [|lia].
    apply Qeq_bool_iff in Eq. specialize (Hlt ltac:(lra)).
    destruct (Z.even f); lia.
Qed.

(** [round(x, n)] stays within a range whose bounds have at most [n]
    decimals. *)
Lemma py_round_range (lo hi x : Q) (n : nat) :
  inject_Z (Qfloor (lo * inject_Z (10 ^ Z.of_nat n))) == lo * inject_Z (10 ^ Z.of_nat n) ->
  inject_Z (Qfloor (hi * inject_Z (10 ^ Z.of_nat n))) == hi * inject_Z (10 ^ Z.of_nat n) ->
  lo <= x <= hi -> lo <= py_round x n <= hi.
Proof.
  set (s := inject_Z (10 ^ Z.of_nat n)). intros Hlo Hhi [H1 H2].
  assert (Hs : 0 < s).
  { unfold s. change 0 with (inject_Z 0). rewrite <- Zlt_Qlt.
    apply Z.pow_pos_nonneg; lia. }
  assert (Hr : (Qfloor (lo * s) <= round_half_even (x * s) <= Qfloor (hi * s))%Z).
  { apply round_half_even_between; rewrite ?Hlo, ?Hhi;
      apply Qmult_le_compat_r; lra. }
  unfold py_round. cbv zeta. fold s.
  set (k := round_half_even (x * s)) in *. split.
  - apply Qle_shift_div_l; [exact Hs|]. rewrite <- Hlo, <- Zle_Qle. lia.
  - apply Qle_shift_div_r; [exact Hs|]. rewrite <- Hhi, <- Zle_Qle. lia.
Qed.

(** Decide the side conditions of [py_round_range] on concrete bounds. *)
Ltac round_range :=
  apply py_round_range; [vm_compute; reflexivity | vm_compute; reflexivity |].

(** *** The seasonal probability model *)

Lemma Qabs_opp_eq (q : Q) : Qabs (- q) = Qabs q.
Proof. destruct q as [n d]. cbn. rewrite Z.abs_opp. reflexivity. Qed.

(** X9: [calculate_monthly_probabilities] gives the same outlooks at
    latitude [lat] and [-lat]: the model has no hemisphere swap. *)
Theorem ml_outlooks_hemisphere_blind (current_month : Z) (lat lon : Q) (months_ahead : Z) :
  calculate_monthly_probabilities current_month (- lat) lon months_ahead
  = calculate_monthly_probabilities current_month lat lon months_ahead.
Proof.
  unfold calculate_monthly_probabilities, calculate_month_probabilities, get_climate_zone,
    get_latitude_adjustments, get_longitude_adjustments.
  rewrite !Qabs_opp_eq. reflexivity.
Qed.

(** X10: every number [_calculate_month_probabilities] publishes lies in
    [0,1], the average temperature and precipitation included: they go
    through the same clamp [max(0, min(1, ...))] as the probabilities. *)
Theorem ml_outlook_unit_interval (month : Z) (zone : string) (lat lon : Q) :
  let o := calculate_month_probabilities month zone lat lon in
  Forall (fun v => 0 <= v <= 1)
    (probabilities_list (ol_probabilities o) ++ [ol_avg_temperature o; ol_avg_precipitation o]).
Proof.
  unfold calculate_month_probabilities. cbv zeta.
  cbn [probabilities_list ol_probabilities ol_avg_temperature ol_avg_precipitation
       very_hot very_cold very_wet very_windy uncomfortable app].
  repeat (apply Forall_cons; [round_range; unfold final_prob; apply clamp_bounds; lra|]).
  apply Forall_nil.
Qed.

(** *** The service's monthly outlook *)

Ltac split_bounds H :=
  repeat match type of H with
  | _ && _ = true => let H' := fresh "B" in apply andb_true_iff in H; destruct H as [H' H];
                     try (apply andb_true_iff in H'; destruct H' as [? ?])
  end.

(** X11: when each [random.uniform] draw lies in the range of the season
    [_generate_monthly_outlook] selects, every published value stays in the
    range of its draw after rounding, and [uncomfortable] lies in [0,1]. *)
Theorem service_outlook_in_ranges (month : Z) (lat lon : Q) (d : draws) :
  draws_in_ranges (service_season month lat) d = true ->
  let o := generate_monthly_outlook month lat lon d in
  let p := ol_probabilities o in
  Forall2 (fun v '(lo, hi) => lo <= v <= hi)
    [very_hot p; very_cold p; very_wet p; very_windy p;
     ol_avg_temperature o; ol_avg_precipitation o]
    (service_ranges (service_season month lat)) /\
  0 <= uncomfortable p <= 1.
Proof.
  intro H. unfold generate_monthly_outlook. cbv zeta.
  cbn [ol_probabilities ol_avg_temperature ol_avg_precipitation
       very_hot very_cold very_wet very_windy uncomfortable].
  destruct (service_season month lat);
    cbn [draws_in_ranges service_ranges draws_list combine forallb] in H |- *;
    rewrite ?andb_true_r in H;
    repeat match goal with
    | H : _ && _ = true |- _ => apply andb_true_iff in H; destruct H
    | H : Qle_bool _ _ = true |- _ => apply Qle_bool_iff in H
    end;
    (split;
     [repeat (apply Forall2_cons; [cbv beta iota; round_range; lra|]); apply Forall2_nil
     | round_range; unfold py_min, Qdiv; change (/ 3) with (1 # 3); case_tests; lra]).
Qed.

Lemma service_outlook_in_ranges_witness :
  draws_in_ranges (service_season 7 40) july_draws = true /\
  let o := generate_monthly_outlook 7 40 0 july_draws in
  let p := ol_probabilities o in
  Forall2 (fun v '(lo, hi) => lo <= v <= hi)
    [very_hot p; very_cold p; very_wet p; very_windy p;
     ol_avg_temperature o; ol_avg_precipitation o]
    (service_ranges (service_season 7 40)) /\
  0 <= uncomfortable p <= 1.
Proof.
  assert (H : draws_in_ranges (service_season 7 40) july_draws = true) by reflexivity.
  split; [exact H|]. exact (service_outlook_in_ranges 7 40 0 july_draws H).
Defined.

(** X12: for a month in 1..12, [_generate_monthly_outlook] at a latitude
    [<= 0] (the equator counts as southern) uses the opposite season of the
    northern one: summer and winter swap, spring and fall swap. *)
Theorem service_season_southern (month : Z) (lat : Q) :
  (1 <= month <= 12)%Z -> lat <= 0 ->
  service_season month lat = swap_season (service_season month 1).
Proof.
  intros Hm Hl. unfold service_season. case_qlt 0 lat; [exfalso; lra|].
  assert (month = 1 \/ month = 2 \/ month = 3 \/ month = 4 \/ month = 5 \/ month = 6 \/
          month = 7 \/ month = 8 \/ month = 9 \/ month = 10 \/ month = 11 \/ month = 12)%Z
    as Hc by lia.
  repeat destruct Hc as [->|Hc]; try subst month; reflexivity.
Qed.

Lemma service_season_southern_witness :
  (1 <= 4 <= 12)%Z /\ -(33 # 1) <= 0 /\
  service_season 4 (-(33 # 1)) = swap_season (service_season 4 1).
Proof.
  assert (H1 : (1 <= 4 <= 12)%Z) by lia.
  assert (H2 : -(33 # 1) <= 0) by (vm_compute; discriminate).
  split; [exact H1|]. split; [exact H2|].
  exact (service_season_southern 4 (-(33 # 1)) H1 H2).
Defined.

(** *** The month sequences *)

Ltac mod12_facts x :=
  pose proof (Z.div_mod x 12 ltac:(lia)); pose proof (Z.mod_pos_bound x 12 ltac:(lia)).

Lemma month_sequence_length (c : Z) (n : nat) : List.length (month_sequence c n) = n.
Proof. unfold month_sequence. rewrite length_map, length_seq. reflexivity. Qed.

Lemma month_sequence_range (c : Z) (n : nat) :
  Forall (fun m => (1 <= m <= 12)%Z) (month_sequence c n).
Proof.
  unfold month_sequence. apply Forall_map, Forall_forall. intros i _.
  mod12_facts (c + Z.of_nat i - 1)%Z. lia.
Qed.

Lemma month_sequence_first (c : Z) (n : nat) :
  (1 <= c <= 12)%Z -> (0 < n)%nat -> hd_error (month_sequence c n) = Some c.
Proof.
  intros Hc Hn. destruct n as [|n]; [lia|]. simpl. f_equal.
  mod12_facts (c + 0 - 1)%Z. lia.
Qed.

Lemma NoDup_map_seq (f : nat -> Z) (s n : nat) :
  (forall i j, (s <= i < s + n)%nat -> (s <= j < s + n)%nat -> f i = f j -> i = j) ->
  NoDup (map f (seq s n)).
Proof.
  revert s; induction n as [|n IH]; intros s Hinj; simpl; constructor.
  - rewrite in_map_iff. intros [j [Hj Hin]]. apply in_seq in Hin.
    specialize (Hinj j s ltac:(lia) ltac:(lia) Hj). lia.
  - apply IH. intros i j Hi Hj. apply Hinj; lia.
Qed.

Lemma month_sequence_NoDup (c : Z) (n : nat) :
  (n <= 12)%nat -> NoDup (month_sequence c n).
Proof.
  intro Hn. apply NoDup_map_seq. intros i j Hi Hj Hij.
  mod12_facts (c + Z.of_nat i - 1)%Z. mod12_facts (c + Z.of_nat j - 1)%Z. lia.
Qed.

Lemma month_sequence_period (c : Z) (n i : nat) :
  (i + 12 < n)%nat ->
  nth_error (month_sequence c n) (i + 12) = nth_error (month_sequence c n) i.
Proof.
  intro H. unfold month_sequence. rewrite !nth_error_map, !nth_error_seq.
  destruct (Nat.ltb_spec (i + 12) n); [|lia].
  destruct (Nat.ltb_spec i n); [|lia]. simpl. f_equal.
  rewrite Nat2Z.inj_add.
  mod12_facts (c + Z.of_nat i - 1)%Z. mod12_facts (c + (Z.of_nat i + Z.of_nat 12) - 1)%Z.
  simpl Z.of_nat in *. lia.
Qed.

(** X13: for a current month [c] in 1..12, [(c + i - 1) % 12 + 1] over
    [range(n)] gives [n] months, each in 1..12, starting with [c]; no month
    repeats within 12 steps, and step [i + 12] repeats step [i]. *)
Theorem month_sequence_props (c : Z) (n : nat) :
  (1 <= c <= 12)%Z ->
  List.length (month_sequence c n) = n /\
  Forall (fun m => (1 <= m <= 12)%Z) (month_sequence c n) /\
  ((0 < n)%nat -> hd_error (month_sequence c n) = Some c) /\
  ((n <= 12)%nat -> NoDup (month_sequence c n)) /\
  (forall i, (i + 12 < n)%nat ->
     nth_error (month_sequence c n) (i + 12) = nth_error (month_sequence c n) i).
Proof.
  intro Hc. split; [apply month_sequence_length|]. split; [apply month_sequence_range|].
  split; [apply month_sequence_first; exact Hc|].
  split; [apply month_sequence_NoDup|]. intros i; apply month_sequence_period.
Qed.

Lemma month_sequence_props_witness :
  (1 <= 11 <= 12)%Z /\
  List.length (month_sequence 11 14) = 14%nat /\
  Forall (fun m => (1 <= m <= 12)%Z) (month_sequence 11 14) /\
  ((0 < 14)%nat -> hd_error (month_sequence 11 14) = Some 11%Z) /\
  ((14 <= 12)%nat -> NoDup (month_sequence 11 14)) /\
  (forall i, (i + 12 < 14)%nat ->
     nth_error (month_sequence 11 14) (i + 12) = nth_error (month_sequence 11 14) i).
Proof.
  assert (H : (1 <= 11 <= 12)%Z) by lia.
  split; [exact H|]. exact (month_sequence_props 11 14 H).
Defined.

Lemma month_name_defined (m : Z) :
  (1 <= m <= 12)%Z ->
  py_index month_names (m - 1) = nth_error month_names (Z.to_nat (m - 1)) /\
  py_index month_names (m - 1) <> None.
Proof.
  intro Hm.
  assert (m = 1 \/ m = 2 \/ m = 3 \/ m = 4 \/ m = 5 \/ m = 6 \/
          m = 7 \/ m = 8 \/ m = 9 \/ m = 10 \/ m = 11 \/ m = 12)%Z as Hc by lia.
  repeat destruct Hc as [->|Hc]; try subst m; split; try reflexivity; discriminate.
Qed.

(** X14: for a current month in 1..12, [get_long_term_forecast] builds six
    outlooks for six distinct months, the current one first, and each
    [month_name] is the month's name ([month_names[month - 1]] never wraps
    around or raises). *)
Theorem long_term_outlooks_months (c : Z) (lat lon : Q) (draws_of : nat -> draws) :
  (1 <= c <= 12)%Z ->
  let l := long_term_outlooks c lat lon draws_of in
  map mo_month l = month_sequence c 6 /\
  hd_error (map mo_month l) = Some c /\
  NoDup (map mo_month l) /\
  Forall (fun mo => mo_month_name mo = nth_error month_names (Z.to_nat (mo_month mo - 1)) /\
                    mo_month_name mo <> None) l.
Proof.
  intro Hc. cbv zeta.
  assert (Hm : map mo_month (long_term_outlooks c lat lon draws_of) = month_sequence c 6)
    by reflexivity.
  rewrite Hm. split; [reflexivity|]. split; [apply month_sequence_first; [exact Hc | lia]|].
  split; [apply month_sequence_NoDup; lia|].
  apply Forall_forall. intros mo Hmo.
  unfold long_term_outlooks in Hmo. apply in_map_iff in Hmo.
  destruct Hmo as [[i m] [<- Hin]]. apply in_combine_r in Hin.
  pose proof (month_sequence_range c 6) as Hr. rewrite Forall_forall in Hr.
  cbn [mo_month mo_month_name]. apply month_name_defined, Hr, Hin.
Qed.

Lemma long_term_outlooks_months_witness :
  (1 <= 9 <= 12)%Z /\
  let l := long_term_outlooks 9 (-(33 # 1)) 151 (fun _ => july_draws) in
  map mo_month l = month_sequence 9 6 /\
  hd_error (map mo_month l) = Some 9%Z /\
  NoDup (map mo_month l) /\
  Forall (fun mo => mo_month_name mo = nth_error month_names (Z.to_nat (mo_month mo - 1)) /\
                    mo_month_name mo <> None) l.
Proof.
  assert (H : (1 <= 9 <= 12)%Z) by lia.
  split; [exact H|]. exact (long_term_outlooks_months 9 (-(33 # 1)) 151 (fun _ => july_draws) H).
Defined.

(** X15: [calculate_monthly_probabilities] returns [max(0, months_ahead)]
    outlooks (none when [months_ahead <= 0]); for a current month in 1..12
    every [month_name] is defined, and the list repeats itself every 12
    months: the model has no year-to-year variation. *)
Theorem ml_monthly_outlooks (c : Z) (lat lon : Q) (months_ahead : Z) :
  (1 <= c <= 12)%Z ->
  let l := calculate_monthly_probabilities c lat lon months_ahead in
  List.length l = Z.to_nat months_ahead /\
  ((months_ahead <= 0)%Z -> l = []) /\
  map mo_month l = month_sequence c (Z.to_nat months_ahead) /\
  Forall (fun mo => mo_month_name mo <> None) l /\
  (forall i, (i + 12 < Z.to_nat months_ahead)%nat -> nth_error l (i + 12) = nth_error l i).
Proof.
  intro Hc. cbv zeta. unfold calculate_monthly_probabilities. cbv zeta.
  split; [rewrite length_map; apply month_sequence_length|].
  split.
  { intro H. replace (Z.to_nat months_ahead) with 0%nat by lia. reflexivity. }
  split; [rewrite map_map; apply map_id|].
  split.
  - apply Forall_map, Forall_forall. intros m Hm. cbn [mo_month_name].
    apply month_name_defined.
    pose proof (month_sequence_range c (Z.to_nat months_ahead)) as Hr.
    rewrite Forall_forall in Hr. apply Hr, Hm.
  - intros i Hi. rewrite !nth_error_map, month_sequence_period by exact Hi. reflexivity.
Qed.

Lemma ml_monthly_outlooks_witness :
  (1 <= 5 <= 12)%Z /\
  let l := calculate_monthly_probabilities 5 (51 # 2) 13 14 in
  List.length l = Z.to_nat 14 /\
  ((14 <= 0)%Z -> l = []) /\
  map mo_month l = month_sequence 5 (Z.to_nat 14) /\
  Forall (fun mo => mo_month_name mo <> None) l /\
  (forall i, (i + 12 < Z.to_nat 14)%nat -> nth_error l (i + 12) = nth_error l i).
Proof.
  assert (H : (1 <= 5 <= 12)%Z) by lia.
  split; [exact H|]. exact (ml_monthly_outlooks 5 (51 # 2) 13 14 H).
Defined.

(** *** The long-term route's weather dictionary *)

(** X16: on the long-term path the routes fix humidity 60 and wind speed 10,
    so the matcher's humidity and strong-wind penalties never apply there:
    an event's raw score comes from its requirements and category alone. *)
Theorem long_term_no_comfort_penalties (e : event) (o : outlook) :
  raw_state e (long_term_weather o)
  = category_adjustment (ev_category e) (long_term_weather o)
      (requirement_penalties (weather_requirements e) (long_term_weather o) (mkSS 100 [] [])).
Proof. reflexivity. Qed.
